(** * FONTA: usage-gated generation pipeline

    A shallow embedding of the retry wrapper, the fallback generators and
    the usage hook of the FONTA study companion, with the properties of
    its specification stated over them.

    Sources embedded here:
    - [src/lib/ai.ts]            ([callHFWithRetry], [summarizeText],
      [createExtractiveSummary], [generateQuiz], [generateMockQuiz],
      [getHomeworkHelp] and their helpers);
    - [src/hooks/useUsageLimits.ts] ([loadUsageData], [incrementUsage],
      [resetUsage]);
    - [src/hooks/useProfile.ts]  ([canUseFeature]). *)

From Stdlib Require Import ZArith Ascii String List Bool Lia.
From Stdlib Require Import Permutation Sorted.
From stdpp Require Import base decidable option gmap strings pretty.
Import ListNotations.

#[local] Open Scope string_scope.
#[local] Open Scope Z_scope.

(** ** JavaScript strings

    A JavaScript string is modelled by its UTF-8 encoding, a [string] of
    bytes, which is what a literal of this file holds.  Splitting at
    ASCII characters, appending, comparing and searching are the same on
    the encoding as on the string; lengths are counted in UTF-16 code
    units, as JavaScript counts them, and white space is the white space
    of [String.prototype.trim], in its encoded form.  A string with a
    surrogate that has no partner has no encoding and is outside the
    model.  The functions below are the [String] methods the sources
    call. *)

Module JS.

(** The double-quote character, which the templates embed. *)
Definition dquote : string := String (ascii_of_nat 34) EmptyString.

(** The line feed, [\n] in the sources. *)
Definition nl : string := String (ascii_of_nat 10) EmptyString.

(** The UTF-16 code units a byte stands for: one for an ASCII character
    and for the first byte of any other character of the basic plane,
    two for the first byte of a character beyond it (a surrogate pair),
    none for a continuation byte. *)
Definition units (c : ascii) : Z :=
  let n := nat_of_ascii c in
  if (n <? 128)%nat then 1
  else if (n <? 192)%nat then 0
  else if (n <? 240)%nat then 1
  else 2.

(** [s.length] *)
Fixpoint len (s : string) : Z :=
  match s with
  | EmptyString => 0
  | String c s' => units c + len s'
  end.

(** The white space and line terminators that [trim] removes.  Of one
    byte: tab, line feed, vertical tab, form feed, carriage return and
    space. *)
Definition is_space (c : ascii) : bool :=
  let n := nat_of_ascii c in
  ((9 <=? n)%nat && (n <=? 13)%nat) || (n =? 32)%nat.

(** Of two bytes: the no-break space U+00A0. *)
Definition is_space2 (a b : ascii) : bool :=
  (nat_of_ascii a =? 194)%nat && (nat_of_ascii b =? 160)%nat.

(** Of three bytes: U+1680, U+2000 to U+200A, U+2028, U+2029, U+202F,
    U+205F, U+3000 and U+FEFF. *)
Definition is_space3 (a b c : ascii) : bool :=
  let x := nat_of_ascii a in
  let y := nat_of_ascii b in
  let z := nat_of_ascii c in
  ((x =? 225) && (y =? 154) && (z =? 128))%nat
  || ((x =? 226)%nat && (y =? 128)%nat
      && (((128 <=? z)%nat && (z <=? 138)%nat)
          || (z =? 168)%nat || (z =? 169)%nat || (z =? 175)%nat))
  || ((x =? 226) && (y =? 129) && (z =? 159))%nat
  || ((x =? 227) && (y =? 128) && (z =? 128))%nat
  || ((x =? 239) && (y =? 187) && (z =? 191))%nat.

(** [s] is one white-space character. *)
Definition is_space_string (s : string) : bool :=
  match s with
  | String a EmptyString => is_space a
  | String a (String b EmptyString) => is_space2 a b
  | String a (String b (String c EmptyString)) => is_space3 a b c
  | _ => false
  end.

Fixpoint trimStart (s : string) : string :=
  match s with
  | EmptyString => EmptyString
  | String a s1 =>
      if is_space a then trimStart s1
      else
        match s1 with
        | EmptyString => s
        | String b s2 =>
            if is_space2 a b then trimStart s2
            else
              match s2 with
              | EmptyString => s
              | String c s3 => if is_space3 a b c then trimStart s3 else s
              end
        end
  end.

(** [trimEnd] drops the trailing white space: once the rest is trimmed,
    a character is dropped when nothing follows it and it is white
    space. *)
Fixpoint trimEnd (s : string) : string :=
  match s with
  | EmptyString => EmptyString
  | String c s' =>
      let t := trimEnd s' in
      if is_space_string (String c t) then EmptyString else String c t
  end.

Definition trim (s : string) : string := trimEnd (trimStart s).

(** A string is truthy when it is not empty. *)
Definition truthy (s : string) : bool :=
  match s with EmptyString => false | _ => true end.

(** [s.toLowerCase()], as far as the ASCII letters of the result go: the
    letters [A]-[Z] are lowered, U+0130 becomes [i] followed by U+0307
    and the Kelvin sign U+212A becomes [k].  Every other character
    lowers to a character outside ASCII and is left as it is here: the
    result is only searched for ASCII words. *)
Definition lower_char (c : ascii) : ascii :=
  let n := nat_of_ascii c in
  if ((65 <=? n)%nat && (n <=? 90)%nat)%bool then ascii_of_nat (n + 32) else c.

Fixpoint toLowerCase (s : string) : string :=
  match s with
  | EmptyString => EmptyString
  | String a s1 =>
      match s1 with
      | EmptyString => String (lower_char a) EmptyString
      | String b s2 =>
          if ((nat_of_ascii a =? 196) && (nat_of_ascii b =? 176))%nat then
            String (ascii_of_nat 105)
              (String (ascii_of_nat 204) (String (ascii_of_nat 135) (toLowerCase s2)))
          else
            match s2 with
            | EmptyString => String (lower_char a) (toLowerCase s1)
            | String c s3 =>
                if ((nat_of_ascii a =? 226) && (nat_of_ascii b =? 132)
                    && (nat_of_ascii c =? 170))%nat
                then String (ascii_of_nat 107) (toLowerCase s3)
                else String (lower_char a) (toLowerCase s1)
            end
      end
  end.

(** [s.includes(k)]: [k] occurs in [s] as a substring. *)
Fixpoint includes (s k : string) : bool :=
  String.prefix k s ||
  match s with
  | EmptyString => false
  | String _ s' => includes s' k
  end.

(** [s.substring(0, n)]: the characters of [s] that fit in the first
    [n] code units.  A character beyond the basic plane that the limit
    cuts in half is left out; JavaScript keeps its first half, which has
    no encoding. *)
Fixpoint take_units (n : Z) (s : string) : string :=
  match s with
  | EmptyString => EmptyString
  | String c s' =>
      if units c <=? n then String c (take_units (n - units c) s') else EmptyString
  end.

Definition substring0 (n : nat) (s : string) : string := take_units (Z.of_nat n) s.

(** [s.split(/[d]+/)] for a character class [d]: the fragments between
    maximal runs of delimiters.  A delimiter run at the start or at the
    end of [s] leaves an empty fragment there, as in JavaScript.
    In [split_runs d cur s], [cur] is the fragment read so far,
    reversed. *)
Fixpoint split_runs (d : ascii -> bool) (cur : list ascii) (s : string)
  : list string :=
  match s with
  | EmptyString => [string_of_list_ascii (rev cur)]
  | String c s' =>
      if d c then
        string_of_list_ascii (rev cur) ::
          (fix after (t : string) : list string :=
             match t with
             | EmptyString => [EmptyString]
             | String c' t' =>
                 if d c' then after t' else split_runs d [c'] t'
             end) s'
      else split_runs d (c :: cur) s'
  end.

(** [s.split(c)] for a one-character separator. *)
Fixpoint split_char (c : ascii) (cur : list ascii) (s : string) : list string :=
  match s with
  | EmptyString => [string_of_list_ascii (rev cur)]
  | String a s' =>
      if Ascii.eqb a c then string_of_list_ascii (rev cur) :: split_char c [] s'
      else split_char c (a :: cur) s'
  end.

(** A number printed in a template literal. *)
Definition show (n : nat) : string := pretty n.

(** A template literal that spans several lines, line by line. *)
Definition lines (l : list string) : string := String.concat nl l.

(** The own property [key] of an object literal whose own properties
    are [table]. *)
Fixpoint lookup (key : string) (table : list (string * string)) : option string :=
  match table with
  | [] => None
  | (k, v) :: table' => if String.eqb key k then Some v else lookup key table'
  end.

(** The properties that every object literal inherits from
    [Object.prototype]: its methods, and the accessor [__proto__]. *)
Definition object_prototype : list string :=
  [ "constructor"; "hasOwnProperty"; "isPrototypeOf"; "propertyIsEnumerable";
    "toLocaleString"; "toString"; "valueOf"; "__proto__";
    "__defineGetter__"; "__defineSetter__"; "__lookupGetter__"; "__lookupSetter__" ].

Definition inherited (key : string) : bool :=
  existsb (String.eqb key) object_prototype.

(** What [table[key]] finds: an own property, a property inherited from
    [Object.prototype] (a function, or the prototype itself for
    [__proto__]), or nothing ([undefined]). *)
Inductive Property :=
| Own (value : string)
| Inherited (name : string)
| Missing.

(** [table[key]] *)
Definition get (key : string) (table : list (string * string)) : Property :=
  match lookup key table with
  | Some v => Own v
  | None => if inherited key then Inherited key else Missing
  end.

(** An inherited property printed in a template literal: the prototype
    prints as an object, a native function prints its name in a form
    that the engine chooses; this is V8's. *)
Definition show_inherited (name : string) : string :=
  if String.eqb name "__proto__" then "[object Object]"
  else
    "function " ++ (if String.eqb name "constructor" then "Object" else name)
      ++ "() { [native code] }".

End JS.

(** ** The retry wrapper, [callHFWithRetry] ([src/lib/ai.ts], lines 11-47) *)

Module Invoker.

(** One element of a successful response array: the fields the callers
    read, [summary_text] and [generated_text]. *)
Record HFItem := mkItem {
  summary_text : option string;
  generated_text : option string
}.

(** [response.data], in the shapes the code tells apart: an object
    whose [error] field is a string; one whose [error] field is an
    array, here of strings (an element of another type equals no
    string); one whose [error] field is truthy and neither, so that it
    has no [includes] method; an array of items; a body that is [null]
    or [undefined], which has no field to read; any other body, whose
    [error] field is missing or falsy. *)
Inductive HFData :=
| DError (error : string)
| DErrors (errors : list string)
| DBadError
| DItems (items : list HFItem)
| DNull
| DOther.

(** A failure thrown by [axios.post]: the HTTP status when the server
    answered (400, 401, 503, ...), none for a network failure or a
    timeout, and the message. *)
Record AxiosError := mkErr {
  status : option Z;
  message : string
}.

(** What one [axios.post] does: it resolves with [response.data] or it
    throws. *)
Inductive Outcome :=
| Resolve (data : HFData)
| Reject (err : AxiosError).

(** What the wrapper and its callers observe, in order: the requests
    sent and the [setTimeout] sleeps, in milliseconds. *)
Inductive Event :=
| Post (attempt : nat)
| Sleep (ms : Z).

(** The result of an [async] function: the value it resolves with or
    the [Error] it throws. *)
Inductive Completion (A : Type) :=
| Returned (v : A)
| Thrown (msg : string).
#[global] Arguments Returned {A} v.
#[global] Arguments Thrown {A} msg.

(** Evaluating the test of line 27 raises a [TypeError]: the body has
    no field to read, or its [error] has no [includes] method. *)
Definition unreadable (d : HFData) : bool :=
  match d with
  | DNull | DBadError => true
  | _ => false
  end.

(** [response.data.error && response.data.error.includes('loading')],
    when it does not raise: a substring test on a string, a membership
    test on an array. *)
Definition is_loading (d : HFData) : bool :=
  match d with
  | DError e => JS.truthy e && JS.includes e "loading"
  | DErrors l => existsb (String.eqb "loading") l
  | _ => false
  end.

Definition exhausted_message (maxRetries : nat) : string :=
  "HuggingFace API failed after " ++ JS.show maxRetries ++ " attempts".

(** The body of [for (let attempt = 1; attempt <= maxRetries; attempt++)],
    entered at [attempt] with [left] iterations to go, that is
    [left = maxRetries + 1 - attempt].  When the loop ends without a
    [return] the function returns [undefined], here [None].  The [catch]
    block receives what [axios.post] throws and what the test of line 27
    raises. *)
Fixpoint attempts (post : nat -> Outcome) (maxRetries attempt left : nat)
  : list Event * Completion (option HFData) :=
  match left with
  | O => ([], Returned None)
  | S left' =>
      match post attempt with
      | Resolve data =>
          if unreadable data then
            if (attempt =? maxRetries)%nat then
              ([Post attempt], Thrown (exhausted_message maxRetries))
            else
              let '(evs, r) := attempts post maxRetries (S attempt) left' in
              (Post attempt :: Sleep (Z.of_nat attempt * 1000) :: evs, r)
          else if is_loading data && (attempt <? maxRetries)%nat then
            let '(evs, r) := attempts post maxRetries (S attempt) left' in
            (Post attempt :: Sleep (Z.of_nat attempt * 2000) :: evs, r)
          else ([Post attempt], Returned (Some data))
      | Reject _ =>
          if (attempt =? maxRetries)%nat then
            ([Post attempt], Thrown (exhausted_message maxRetries))
          else
            let '(evs, r) := attempts post maxRetries (S attempt) left' in
            (Post attempt :: Sleep (Z.of_nat attempt * 1000) :: evs, r)
      end
  end.

(** [callHFWithRetry(model, inputs, params, maxRetries)]; [post] is what
    the request to that model with those inputs does at each attempt. *)
Definition callHFWithRetry (post : nat -> Outcome) (maxRetries : nat)
  : list Event * Completion (option HFData) :=
  attempts post maxRetries 1 maxRetries.

(** The number of requests sent and the sleeps taken in a run. *)
Definition posts (evs : list Event) : nat :=
  List.length (List.filter (fun e => match e with Post _ => true | _ => false end) evs).

Definition sleeps (evs : list Event) : list Z :=
  flat_map (fun e => match e with Sleep ms => [ms] | _ => [] end) evs.

(** The events of a run whose first [n] attempts, from [attempt] on,
    are all retried after a thrown error. *)
Fixpoint rejected_run (attempt n : nat) : list Event :=
  match n with
  | O => []
  | S n' => Post attempt :: Sleep (Z.of_nat attempt * 1000) :: rejected_run (S attempt) n'
  end.

(** The two transient failures of the specification: the warm-up answer
    and a thrown error. *)
Definition transient (o : Outcome) : bool :=
  match o with
  | Resolve d => is_loading d
  | Reject _ => true
  end.

(** The call fails on each of the attempts [1 .. maxRetries]. *)
Definition fails_always (post : nat -> Outcome) (maxRetries : nat) : Prop :=
  forall a, (1 <= a <= maxRetries)%nat -> transient (post a) = true.

(** The specification's fatal errors: a malformed request (400) or an
    authentication failure (401, 403). *)
Definition fatal (e : AxiosError) : bool :=
  match status e with
  | Some c => (c =? 400) || (c =? 401) || (c =? 403)
  | None => false
  end.

End Invoker.

(** ** The summary generators ([src/lib/ai.ts], lines 74-136) *)

Module Summary.

(** The delimiter class of [/[.!?]+/]. *)
Definition is_delim (c : ascii) : bool :=
  Ascii.eqb c "." || Ascii.eqb c "!" || Ascii.eqb c "?".

(** [text.split(/[.!?]+/)] *)
Definition split_sentences (text : string) : list string :=
  JS.split_runs is_delim [] text.

Definition heading : string := "## 📝 Summary" ++ JS.nl ++ JS.nl.

(** One line of a numbered list, [`${index + 1}. ${sentence}.\n`]. *)
Definition numbered (index : nat) (sentence : string) : string :=
  JS.show (index + 1) ++ ". " ++ sentence ++ "." ++ JS.nl.

Definition bullet (sentence : string) : string :=
  "• " ++ sentence ++ "." ++ JS.nl.

(** [l.forEach((sentence, index) => { formatted += line(index, sentence) })],
    [index] counting from [start]. *)
Fixpoint render_from (start : nat) (l : list string) : string :=
  match l with
  | [] => EmptyString
  | sentence :: l' => numbered start sentence ++ render_from (S start) l'
  end.

Definition render (l : list string) : string := render_from 0 l.

(** [formatSummary], lines 74-99. *)
Definition formatSummary (summary : string) : string :=
  let sentences :=
    List.filter (fun s => (0 <? JS.len (JS.trim s))) (split_sentences summary) in
  if (3 <? List.length sentences)%nat then
    heading ++ "### Key Points:" ++ JS.nl
      ++ render (map JS.trim (firstn 3 sentences))
      ++ JS.nl ++ "### Additional Details:" ++ JS.nl
      ++ String.concat EmptyString (map (fun s => bullet (JS.trim s)) (skipn 3 sentences))
  else
    heading ++ render (map JS.trim sentences).

(** The fragments kept by [createExtractiveSummary]:
    [text.split(/[.!?]+/).filter(s => s.trim().length > 15)]. *)
Definition sentences (text : string) : list string :=
  List.filter (fun s => (15 <? JS.len (JS.trim s))) (split_sentences text).

Definition keyWords : list string :=
  ["important"; "key"; "main"; "primary"; "essential"; "significant"; "crucial"].

(** An element of [scoredSentences]. *)
Record Scored := mkScored {
  sentence : string;
  score : Z
}.

(** The score of the fragment at [index] among [n] fragments: 2 for the
    first and the last one, 1 for each keyword its lower-case form
    includes, 1 when its length, untrimmed, lies strictly between 30
    and 300. *)
Definition score_of (n index : nat) (s : string) : Z :=
  (if (index =? 0)%nat || (Z.of_nat index =? Z.of_nat n - 1) then 2 else 0)
  + fold_left
      (fun acc keyword =>
         if JS.includes (JS.toLowerCase s) keyword then acc + 1 else acc)
      keyWords 0
  + (if (30 <? JS.len s) && (JS.len s <? 300) then 1 else 0).

(** [sentences.map((sentence, index) => ...)], [index] counting from
    [start]. *)
Fixpoint score_from (n start : nat) (l : list string) : list Scored :=
  match l with
  | [] => []
  | s :: l' => mkScored (JS.trim s) (score_of n start s) :: score_from n (S start) l'
  end.

Definition scoredSentences (text : string) : list Scored :=
  score_from (List.length (sentences text)) 0 (sentences text).

(** [Array.prototype.sort] with a comparator is a stable sort: an
    element goes before the first one that the comparator does not put
    ahead of it, so equal elements keep their order.  [cmp a b <= 0]
    reads "[a] does not come after [b]". *)
Section StableSort.
Context {A : Type} (cmp : A -> A -> Z).

Fixpoint insert (x : A) (l : list A) : list A :=
  match l with
  | [] => [x]
  | y :: l' => if cmp x y <=? 0 then x :: y :: l' else y :: insert x l'
  end.

Fixpoint sort (l : list A) : list A :=
  match l with
  | [] => []
  | x :: l' => insert x (sort l')
  end.
End StableSort.

(** The comparator [(a, b) => b.score - a.score]. *)
Definition by_score (a b : Scored) : Z := score b - score a.

(** [scoredSentences.sort(...)], the sentences ranked. *)
Definition ranked (text : string) : list Scored :=
  sort by_score (scoredSentences text).

(** [topSentences], lines 125-128. *)
Definition topSentences (text : string) : list string :=
  map sentence
    (firstn (Nat.min 8 (List.length (sentences text))) (ranked text)).

(** [createExtractiveSummary], lines 101-136. *)
Definition createExtractiveSummary (text : string) : string :=
  heading ++ render (topSentences text).

(** [a] is ranked no lower than [b]. *)
Definition no_lower (a b : Scored) : Prop := score b <= score a.

(** The sentences that score [v]. *)
Definition scoring (v : Z) (a : Scored) : bool := score a =? v.

End Summary.

(** ** The quiz generators ([src/lib/ai.ts], lines 170-270) *)

Module Quiz.

(** ['easy' | 'medium' | 'hard'], the type of [generateQuiz]'s
    [difficulty]. *)
Inductive Difficulty := easy | medium | hard.

Definition difficulty_name (d : Difficulty) : string :=
  match d with easy => "easy" | medium => "medium" | hard => "hard" end.

Inductive QuestionType := mcq | short_answer.

(** A question object; [options] is present on [mcq] questions only. *)
Record Question := mkQuestion {
  type : QuestionType;
  question : string;
  options : option (list string);
  answer : string;
  difficulty : Difficulty
}.

Definition difficultyInstructions (d : Difficulty) : string :=
  match d with
  | easy => "Create simple, straightforward questions that test basic understanding."
  | medium => "Create moderately challenging questions that require some analysis."
  | hard => "Create complex questions that require deep understanding and critical thinking."
  end.

(** [createQuizPrompt], lines 170-186. *)
Definition createQuizPrompt (text : string) (d : Difficulty) : string :=
  JS.lines
    [ EmptyString;
      "Based on this text, create 10 quiz questions (" ++ difficulty_name d ++ " difficulty):";
      EmptyString;
      JS.dquote ++ JS.substring0 800 text ++ JS.dquote;
      EmptyString;
      difficultyInstructions d;
      EmptyString;
      "Format: Mix of multiple choice (4 options) and short answer questions.";
      EmptyString ].

(** [text.split('\n').filter(line => line.trim())] *)
Definition nonblank_lines (text : string) : list string :=
  List.filter (fun line => JS.truthy (JS.trim line))
    (JS.split_char (ascii_of_nat 10) [] text).

(** [parseQuizFromText], lines 188-216.  [random i] is the outcome of
    [Math.random() > 0.5] in iteration [i] of the loop, which runs over
    the first [Math.min(10, lines.length)] lines. *)
Fixpoint parse_from (random : nat -> bool) (d : Difficulty) (i : nat)
    (lines : list string) : list Question :=
  match lines with
  | [] => []
  | line :: lines' =>
      (if random i then
         mkQuestion mcq ("Based on the content, " ++ line ++ "?")
           (Some ["Option A"; "Option B"; "Option C"; "Option D"])
           "Option A" d
       else
         mkQuestion short_answer ("Explain: " ++ line) None
           "Sample answer based on the content provided." d)
      :: parse_from random d (S i) lines'
  end.

Definition parseQuizFromText (random : nat -> bool) (text : string)
    (d : Difficulty) : list Question :=
  parse_from random d 0 (firstn 10 (nonblank_lines text)).

(** [questionStarters], lines 220-239. *)
Definition questionStarters (d : Difficulty) : list string :=
  match d with
  | easy =>
      [ "What is mentioned about";
        "According to the text, what is";
        "The text states that";
        "Which of the following is true" ]
  | medium =>
      [ "How does the text explain";
        "What can be inferred about";
        "The relationship between";
        "Why does the author suggest" ]
  | hard =>
      [ "Critically analyze the concept of";
        "Evaluate the effectiveness of";
        "Compare and contrast the ideas about";
        "What are the implications of" ]
  end.

(** [starters[i % starters.length]]; every table has four entries, so
    the index is in range. *)
Definition starter (d : Difficulty) (i : nat) : string :=
  let starters := questionStarters d in
  nth (i mod List.length starters) starters EmptyString.

Definition mock_options : list string :=
  [ "The main concept discussed in the text";
    "A secondary topic mentioned briefly";
    "An unrelated concept";
    "None of the above" ].

(** The question pushed in iteration [i] of the loop of
    [generateMockQuiz], lines 244-266. *)
Definition mock_question (d : Difficulty) (i : nat) : Question :=
  if (i mod 3 =? 0)%nat then
    mkQuestion short_answer
      (starter d i ++ " the main concepts discussed in the text?") None
      "This question requires analysis of the key concepts presented in the study material."
      d
  else
    mkQuestion mcq
      (starter d i ++ " the primary focus of this material?")
      (Some mock_options)
      "The main concept discussed in the text" d.

(** [generateMockQuiz(text, difficulty)], lines 218-270:
    [for (let i = 0; i < 10; i++)]. *)
Definition generateMockQuiz (text : string) (d : Difficulty) : list Question :=
  map (mock_question d) (seq 0 10).

End Quiz.

(** ** The homework generators ([src/lib/ai.ts], lines 297-435)

    [subject] is any string.  A table is read at [subject]: this finds
    the table's own entry, or a property that every object inherits
    when [subject] names one, or nothing, in which case the [general]
    entry is taken. *)

Module Homework.

Definition subjectInstructions : list (string * string) :=
  [ ("mathematics", "Provide step-by-step mathematical solution with clear explanations.");
    ("science", "Explain the scientific concepts and principles involved.");
    ("essay", "Provide essay structure guidance and writing tips.");
    ("general", "Provide clear, educational explanation.") ].

(** [createHomeworkPrompt], lines 297-313; a missing table entry prints
    as [undefined]. *)
Definition createHomeworkPrompt (question subject : string) : string :=
  JS.lines
    [ EmptyString;
      "Question: " ++ question;
      "Subject: " ++ subject;
      EmptyString;
      match JS.get subject subjectInstructions with
      | JS.Own instructions => instructions
      | JS.Inherited name => JS.show_inherited name
      | JS.Missing => "undefined"
      end;
      EmptyString;
      "Please provide a detailed, educational response suitable for Nigerian university students.";
      EmptyString ].

(** The [templates] table of [formatHomeworkResponse], lines 316-324. *)
Definition templates (response : string) : list (string * string) :=
  [ ("mathematics",
     JS.lines
       [ "## 🔢 Step-by-Step Solution";
         EmptyString;
         "### Understanding the Problem";
         response;
         EmptyString;
         "### Solution Steps";
         "1. Identify given information";
         "2. Apply relevant formulas";
         "3. Calculate step by step";
         "4. Verify the answer";
         EmptyString;
         "### Study Tips";
         "• Practice similar problems";
         "• Memorize key formulas";
         "• Check your work" ]);
    ("science",
     JS.lines
       [ "## 🔬 Scientific Explanation";
         EmptyString;
         "### Core Concepts";
         response;
         EmptyString;
         "### Key Principles";
         "• Fundamental laws involved";
         "• Real-world applications";
         "• Common misconceptions";
         EmptyString;
         "### Further Study";
         "• Review related topics";
         "• Conduct experiments";
         "• Connect to daily life" ]);
    ("essay",
     JS.lines
       [ "## ✍️ Essay Writing Guide";
         EmptyString;
         "### Structure Recommendation";
         response;
         EmptyString;
         "### Writing Tips";
         "• Clear thesis statement";
         "• Strong supporting evidence";
         "• Logical flow of ideas";
         "• Compelling conclusion";
         EmptyString;
         "### Nigerian Context";
         "• Use local examples";
         "• Consider cultural perspectives";
         "• Address relevant issues" ]);
    ("general",
     JS.lines
       [ "## 📚 Detailed Explanation";
         EmptyString;
         response;
         EmptyString;
         "### Key Takeaways";
         "• Main concepts to remember";
         "• Practical applications";
         "• Study recommendations" ]) ].

(** The [responses] table of [generateMockHomeworkHelp], lines 330-432. *)
Definition responses (question : string) : list (string * string) :=
  [ ("mathematics",
     JS.lines
       [ "## 🔢 Step-by-Step Solution";
         EmptyString;
         "### Understanding the Problem";
         "Let's break down your question: " ++ JS.dquote ++ question ++ JS.dquote;
         EmptyString;
         "### Solution Approach";
         "1. **Identify what we know**: Extract the given information";
         "2. **Determine what we need to find**: Clarify the objective";
         "3. **Choose the right method**: Select appropriate formulas or techniques";
         "4. **Solve systematically**: Work through each step carefully";
         "5. **Verify the answer**: Check if the result makes sense";
         EmptyString;
         "### Nigerian Exam Context";
         "This type of question commonly appears in:";
         "• JAMB Mathematics";
         "• University entrance exams";
         "• Course assessments";
         EmptyString;
         "### Study Tips";
         "• Practice similar problems daily";
         "• Understand the concept, don't just memorize";
         "• Show all working steps in exams" ]);
    ("science",
     JS.lines
       [ "## 🔬 Scientific Explanation";
         EmptyString;
         "### Core Concept Analysis";
         "Your question " ++ JS.dquote ++ question ++ JS.dquote ++ " involves important scientific principles.";
         EmptyString;
         "### Key Scientific Principles";
         "• **Fundamental Laws**: The underlying scientific laws that apply";
         "• **Cause and Effect**: How different factors interact";
         "• **Real-world Applications**: Where you see this in daily life";
         EmptyString;
         "### Nigerian Educational Context";
         "This concept is relevant to:";
         "• WAEC Science subjects";
         "• University science courses";
         "• Practical applications in Nigeria";
         EmptyString;
         "### Study Strategy";
         "• Connect theory to practical examples";
         "• Use diagrams and visual aids";
         "• Relate to local environmental examples" ]);
    ("essay",
     JS.lines
       [ "## ✍️ Essay Writing Guidance";
         EmptyString;
         "### Analyzing Your Topic";
         JS.dquote ++ question ++ JS.dquote ++ " requires a structured approach to essay writing.";
         EmptyString;
         "### Recommended Structure";
         "1. **Introduction** (1 paragraph)";
         "   • Hook to grab attention";
         "   • Background context";
         "   • Clear thesis statement";
         EmptyString;
         "2. **Body Paragraphs** (2-3 paragraphs)";
         "   • One main idea per paragraph";
         "   • Evidence and examples";
         "   • Nigerian context where relevant";
         EmptyString;
         "3. **Conclusion** (1 paragraph)";
         "   • Summarize key points";
         "   • Restate thesis";
         "   • Call to action or final thought";
         EmptyString;
         "### Nigerian Writing Context";
         "• Use local examples and case studies";
         "• Consider cultural perspectives";
         "• Address issues relevant to Nigerian society";
         EmptyString;
         "### Writing Tips";
         "• Write clearly and concisely";
         "• Use transition words";
         "• Proofread carefully" ]);
    ("general",
     JS.lines
       [ "## 📚 Comprehensive Explanation";
         EmptyString;
         "### Question Analysis";
         "Let me help you understand: " ++ JS.dquote ++ question ++ JS.dquote;
         EmptyString;
         "### Key Concepts";
         "• **Main Idea**: The central concept you need to grasp";
         "• **Supporting Details**: Important facts and information";
         "• **Connections**: How this relates to other topics";
         EmptyString;
         "### Learning Strategy";
         "1. Break down complex ideas into smaller parts";
         "2. Use examples to understand abstract concepts";
         "3. Practice applying the knowledge";
         "4. Connect to real-world situations";
         EmptyString;
         "### Nigerian Educational Context";
         "This topic is important for:";
         "• Academic success in Nigerian institutions";
         "• Practical application in local context";
         "• Building foundational knowledge";
         EmptyString;
         "### Next Steps";
         "• Review related materials";
         "• Practice with similar questions";
         "• Discuss with classmates or teachers" ]) ].

(** What the two generators return: a text, or, for a subject that
    names an inherited property, that property, which is no string. *)
Inductive Value :=
| Str (text : string)
| NotString (property : string).

(** [table[subject] || table.general] *)
Definition pick (subject : string) (table : list (string * string)) : Value :=
  let general := Str (default EmptyString (JS.lookup "general" table)) in
  match JS.get subject table with
  | JS.Own template => if JS.truthy template then Str template else general
  | JS.Inherited name => NotString name
  | JS.Missing => general
  end.

Definition formatHomeworkResponse (response subject : string) : Value :=
  pick subject (templates response).

Definition generateMockHomeworkHelp (question subject : string) : Value :=
  pick subject (responses question).

End Homework.

(** ** The generation entry points ([src/lib/ai.ts]) *)

Module Pipeline.
Import Invoker.

(** An [async] computation: the events it causes and how it completes. *)
Definition Async (A : Type) : Type := list Event * Completion A.

Definition ret {A} (v : A) : Async A := ([], Returned v).

Definition bind {A B} (m : Async A) (k : A -> Async B) : Async B :=
  match m with
  | (evs, Returned v) => let '(evs', r) := k v in ((evs ++ evs')%list, r)
  | (evs, Thrown msg) => (evs, Thrown msg)
  end.

(** [try { body } catch (error) { handler }] *)
Definition try_catch {A} (body : Async A) (handler : string -> Async A) : Async A :=
  match body with
  | (evs, Returned v) => (evs, Returned v)
  | (evs, Thrown msg) => let '(evs', r) := handler msg in ((evs ++ evs')%list, r)
  end.

Notation "'await!' x ':=' m 'in' k" := (bind m (fun x => k))
  (at level 10, x name, m at level 100, k at level 200).

(** [result?.[0]?.field], when it is truthy. *)
Definition first_field (field : HFItem -> option string)
    (result : option HFData) : option string :=
  match result with
  | Some (DItems (item :: _)) =>
      match field item with
      | Some s => if JS.truthy s then Some s else None
      | None => None
      end
  | _ => None
  end.

(** The network: what a request to [model] with [inputs] does at each
    attempt. *)
Section WithNetwork.
Variable post : string -> string -> nat -> Outcome.

(** [summarizeText], lines 49-72. *)
Definition summarizeText (text : string) : Async string :=
  try_catch
    (await! result :=
       callHFWithRetry
         (post "facebook/bart-large-cnn" (JS.substring0 4096 text)) 3 in
     match first_field summary_text result with
     | Some summary => ret (Summary.formatSummary summary)
     | None => ret (Summary.createExtractiveSummary text)
     end)
    (fun _ => ret (Summary.createExtractiveSummary text)).

(** [generateQuiz], lines 138-168; [random] as in
    [Quiz.parseQuizFromText]. *)
Definition generateQuiz (random : nat -> bool) (text : string)
    (d : Quiz.Difficulty) : Async (list Quiz.Question) :=
  try_catch
    (let prompt := Quiz.createQuizPrompt text d in
     await! result :=
       callHFWithRetry (post "microsoft/DialoGPT-medium" prompt) 3 in
     match first_field generated_text result with
     | Some generated =>
         try_catch
           (let quizData := Quiz.parseQuizFromText random generated d in
            ret (if (0 <? List.length quizData)%nat then quizData
                 else Quiz.generateMockQuiz text d))
           (fun _ => ret (Quiz.generateMockQuiz text d))
     | None => ret (Quiz.generateMockQuiz text d)
     end)
    (fun _ => ret (Quiz.generateMockQuiz text d)).

(** [getHomeworkHelp], lines 272-295. *)
Definition getHomeworkHelp (question subject : string) : Async Homework.Value :=
  try_catch
    (let prompt := Homework.createHomeworkPrompt question subject in
     await! result :=
       callHFWithRetry (post "microsoft/DialoGPT-medium" prompt) 3 in
     match first_field generated_text result with
     | Some generated => ret (Homework.formatHomeworkResponse generated subject)
     | None => ret (Homework.generateMockHomeworkHelp question subject)
     end)
    (fun _ => ret (Homework.generateMockHomeworkHelp question subject)).

(** A generation request of any of the three kinds, the content it
    is answered with, and the entry point that serves it. *)
Inductive Request :=
| Summarize (text : string)
| MakeQuiz (random : nat -> bool) (text : string) (d : Quiz.Difficulty)
| Help (question subject : string).

Inductive Content :=
| Text (s : string)
| Questions (l : list Quiz.Question)
| NotText (property : string).

Definition content_of (v : Homework.Value) : Content :=
  match v with
  | Homework.Str s => Text s
  | Homework.NotString property => NotText property
  end.

Definition serve (req : Request) : Async Content :=
  match req with
  | Summarize text =>
      await! s := summarizeText text in ret (Text s)
  | MakeQuiz random text d =>
      await! l := generateQuiz random text d in ret (Questions l)
  | Help question subject =>
      await! v := getHomeworkHelp question subject in ret (content_of v)
  end.




End WithNetwork.

End Pipeline.

(** ** The usage hook ([src/hooks/useUsageLimits.ts]) *)

Module Usage.

(** A row of the [daily_usage] table; times are in milliseconds. *)
Record Row := mkRow {
  total_count : Z;
  last_reset : Z;
  updated_at : Z
}.

(** The backing store as the hook sees it: whether it can be reached,
    and the [daily_usage] table, one row per [(user_id, date)]. *)
Record DB := mkDB {
  reachable : bool;
  daily_usage : gmap (string * Z) Row
}.

(** The error of a query: [PGRST116] when [.single()] finds no row,
    anything else otherwise. *)
Inductive QueryError := PGRST116 | OtherError.

(** [{ data, error }] of a Supabase query. *)
Record Reply := mkReply {
  data : option Row;
  error : option QueryError
}.

(** [.select('*').eq('user_id', userId).eq('date', today).single()] *)
Definition select_single (db : DB) (key : string * Z) : Reply :=
  if reachable db then
    match daily_usage db !! key with
    | Some row => mkReply (Some row) None
    | None => mkReply None (Some PGRST116)
    end
  else mkReply None (Some OtherError).

(** [.insert(row).select().single()] *)
Definition insert_row (db : DB) (key : string * Z) (row : Row) : DB * Reply :=
  if reachable db then
    (mkDB true (<[key := row]> (daily_usage db)), mkReply (Some row) None)
  else (db, mkReply None (Some OtherError)).

(** [.update(change).eq(...).eq(...).select().single()]: the row is
    rewritten by the store in one step. *)
Definition update_row (db : DB) (key : string * Z) (change : Row -> Row)
  : DB * Reply :=
  if reachable db then
    match daily_usage db !! key with
    | Some row =>
        (mkDB true (<[key := change row]> (daily_usage db)),
         mkReply (Some (change row)) None)
    | None => (db, mkReply None (Some PGRST116))
    end
  else (db, mkReply None (Some OtherError)).

(** The hook's [useState] cells, lines 5-8. *)
Record Hook := mkHook {
  totalUsage : Z;
  canUse : bool;
  timeUntilReset : Z;
  loading : bool
}.

(** The state of a hook that has just been mounted. *)
Definition initial : Hook := mkHook 0 true 0 true.

Definition setTotalUsage (v : Z) (h : Hook) : Hook :=
  mkHook v (canUse h) (timeUntilReset h) (loading h).
Definition setCanUse (v : bool) (h : Hook) : Hook :=
  mkHook (totalUsage h) v (timeUntilReset h) (loading h).
Definition setTimeUntilReset (v : Z) (h : Hook) : Hook :=
  mkHook (totalUsage h) (canUse h) v (loading h).
Definition setLoading (v : bool) (h : Hook) : Hook :=
  mkHook (totalUsage h) (canUse h) (timeUntilReset h) v.

(** [6 * 60 * 60 * 1000] *)
Definition sixHours : Z := 6 * 60 * 60 * 1000.

(** [new Date().toISOString().split('T')[0]]: the UTC day of [now]. *)
Definition today (now : Z) : Z := now / 86400000.

(** [calculateTimeUntilReset], lines 75-78. *)
Definition calculateTimeUntilReset (now lastReset : Z) : Z :=
  Z.max 0 (lastReset + sixHours - now).

(** [resetUsage], lines 114-138. *)
Definition resetUsage (userId : string) (now : Z) (st : DB * Hook) : DB * Hook :=
  let '(db, h) := st in
  let '(db', reply) :=
    update_row db (userId, today now)
      (fun _ => mkRow 0 now now) in
  match data reply with
  | Some _ => (db', setTimeUntilReset sixHours (setCanUse true (setTotalUsage 0 h)))
  | None => (db', h)
  end.

(** [loadUsageData], lines 22-73.  A call is taken at one instant
    [now]. *)
Definition loadUsageData (userId : string) (now : Z) (st : DB * Hook) : DB * Hook :=
  let '(db, h) := st in
  let reply := select_single db (userId, today now) in
  let '(db', h') :=
    match error reply, data reply with
    | Some PGRST116, _ =>
        let '(db', created) := insert_row db (userId, today now) (mkRow 0 now now) in
        match data created with
        | Some newData =>
            (db', setTimeUntilReset (calculateTimeUntilReset now (last_reset newData))
                    (setCanUse true (setTotalUsage 0 h)))
        | None => (db', h)
        end
    | _, Some row =>
        let h1 := setTotalUsage (total_count row) h in
        let timeSinceReset := now - last_reset row in
        if (sixHours <=? timeSinceReset) && (15 <=? total_count row) then
          resetUsage userId now (db, h1)
        else
          (db, setTimeUntilReset (calculateTimeUntilReset now (last_reset row))
                 (setCanUse (total_count row <? 15) h1))
    | _, None => (db, h)
    end in
  (db', setLoading false h').

(** [incrementUsage], lines 86-112.  [h] is the state of the render
    the caller's closure comes from: [canUse] and [totalUsage] are read
    from it, not from the store. *)
Definition incrementUsage (userId : string) (now : Z) (st : DB * Hook)
  : DB * Hook * bool :=
  let '(db, h) := st in
  if negb (canUse h) then (db, h, false)
  else
    let '(db', reply) :=
      update_row db (userId, today now)
        (fun row => mkRow (totalUsage h + 1) (last_reset row) now) in
    match data reply with
    | Some row =>
        (db', setCanUse (total_count row <? 15) (setTotalUsage (total_count row) h), true)
    | None => (db', h, false)
    end.

(** [remainingUses], line 147. *)
Definition remainingUses (h : Hook) : Z := Z.max 0 (15 - totalUsage h).

(** [n] calls of [incrementUsage] made from one render: each closure
    holds the same state [h], and the store applies their updates one
    after the other. *)
Fixpoint concurrent (userId : string) (now : Z) (h : Hook) (n : nat) (db : DB)
  : DB * list bool :=
  match n with
  | O => (db, [])
  | S n' =>
      let '(db', _, ok) := incrementUsage userId now (db, h) in
      let '(db'', oks) := concurrent userId now h n' db' in
      (db'', ok :: oks)
  end.

(** [n] calls of [incrementUsage] one after the other, each made from
    the render that follows the previous call. *)
Fixpoint sequential (userId : string) (now : Z) (n : nat) (st : DB * Hook)
  : DB * Hook * list bool :=
  match n with
  | O => (st, [])
  | S n' =>
      let '(db', h', ok) := incrementUsage userId now st in
      let '(st', oks) := sequential userId now n' (db', h') in
      (st', ok :: oks)
  end.

(** The guard of the tab handlers ([handleSummarize], [handleGenerateQuiz],
    [handleGetHelp]): [if (!content.trim() || !canUse) return;]. *)
Definition allowed (h : Hook) (content : string) : bool :=
  JS.truthy (JS.trim content) && canUse h.

(** The store holds [row] for the user today and the hook has loaded it. *)
Definition in_sync (userId : string) (now : Z) (db : DB) (h : Hook) (row : Row) : Prop :=
  reachable db = true /\
  daily_usage db !! (userId, today now) = Some row /\
  totalUsage h = total_count row /\
  canUse h = (total_count row <? 15).

End Usage.

(** ** The profile hook ([src/hooks/useProfile.ts]) *)

Module Profile.

Inductive Subscription := free | premium.
Inductive Feature := quiz | summary | homework.

(** The columns of [profiles] that [canUseFeature] reads. *)
Record Profile := mkProfile {
  subscription_type : Subscription;
  quiz_count : Z;
  summary_count : Z;
  homework_count : Z
}.

(** [limits], line 89. *)
Definition limits (type : Feature) : Z :=
  match type with quiz => 3 | summary => 2 | homework => 1 end.

(** [profile[`${type}_count`]] *)
Definition count_of (p : Profile) (type : Feature) : Z :=
  match type with
  | quiz => quiz_count p
  | summary => summary_count p
  | homework => homework_count p
  end.

(** [canUseFeature], lines 85-94. *)
Definition canUseFeature (profile : option Profile) (type : Feature) : bool :=
  match profile with
  | None => false
  | Some p =>
      match subscription_type p with
      | premium => true
      | free => count_of p type <? limits type
      end
  end.

End Profile.

(** ** A request in a tab ([handleSummarize], SummarizerTab)

    The handler returns at once when the guard fails; otherwise it shows
    the generated content and then records the use. *)

Module Tab.
Import Invoker Pipeline Usage.

Definition handleSummarize (post : string -> string -> nat -> Outcome)
    (userId : string) (now : Z) (content : string) (st : DB * Hook)
  : DB * Hook * option (Async string) :=
  if negb (allowed (snd st) content) then (st, None)
  else
    let shown := summarizeText post content in
    let '(db', h', _) := incrementUsage userId now st in
    (db', h', Some shown).

End Tab.

(** ** Runs of delimiters *)

Module Runs.

(** [s] without the delimiters it starts with. *)
Fixpoint skip (d : ascii -> bool) (s : string) : string :=
  match s with
  | EmptyString => EmptyString
  | String c s' => if d c then skip d s' else s
  end.

(** [s] is made of white-space characters only. *)
Fixpoint blank (s : string) : bool :=
  match s with
  | EmptyString => true
  | String a s1 =>
      if JS.is_space a then blank s1
      else
        match s1 with
        | EmptyString => false
        | String b s2 =>
            if JS.is_space2 a b then blank s2
            else
              match s2 with
              | EmptyString => false
              | String c s3 => JS.is_space3 a b c && blank s3
              end
        end
  end.

(** No character of [s] is a delimiter. *)
Fixpoint free_of (d : ascii -> bool) (s : string) : bool :=
  match s with
  | EmptyString => true
  | String c s' => negb (d c) && free_of d s'
  end.

End Runs.

(** ** Time spent backing off *)

Module Backoff.
Import Invoker.

(** The total time slept in a run, in milliseconds. *)
Definition slept (evs : list Event) : Z := fold_right Z.add 0 (sleeps evs).

(** Requests numbered from [attempt] on with one sleep, of the given
    length, between each and the next, and none after the last. *)
Fixpoint weave (attempt : nat) (delays : list Z) : list Event :=
  match delays with
  | [] => [Post attempt]
  | d :: delays' => Post attempt :: Sleep d :: weave (S attempt) delays'
  end.

(** The sleep that follows attempt [a] lasts [a * 1000] or [a * 2000]
    ms. *)
Fixpoint backoff_delays (attempt : nat) (delays : list Z) : Prop :=
  match delays with
  | [] => True
  | d :: delays' =>
      (d = Z.of_nat attempt * 1000 \/ d = Z.of_nat attempt * 2000) /\
      backoff_delays (S attempt) delays'
  end.

(** The attempt ends in the [catch] block: the request throws, or the
    test of line 27 raises on its answer. *)
Definition caught (o : Outcome) : bool :=
  match o with
  | Reject _ => true
  | Resolve d => unreadable d
  end.

(** The attempt fails: it ends in the [catch] block or it is answered
    with the warm-up payload. *)
Definition failed (o : Outcome) : bool :=
  match o with
  | Reject _ => true
  | Resolve d => unreadable d || is_loading d
  end.

End Backoff.

(** ** The shape of a question *)

Module QuizShape.
Import Quiz.

(** A question of difficulty [d] as the quiz tab can render and score
    it: a short answer without options, or a multiple choice with four
    options, one of which is its answer. *)
Definition well_formed (d : Difficulty) (q : Question) : Prop :=
  difficulty q = d /\
  match type q with
  | short_answer => options q = None
  | mcq =>
      exists opts,
        options q = Some opts /\ List.length opts = 4%nat /\ In (answer q) opts
  end.

End QuizShape.

(** ** Activity counters and streaks
       ([src/hooks/useProfile.ts], lines 36-83) *)

Module Streak.
Import Profile.

(** A row of [profiles]: the columns of [Profile.Profile] and the
    streak columns; [last_activity] is a time in milliseconds. *)
Record Row := mkRow {
  counts : Profile;
  current_streak : Z;
  longest_streak : Z;
  last_activity : option Z
}.

(** The object [updates] built by [incrementUsage], lines 75-80. *)
Record Updates := mkUpdates {
  field : Feature;
  newCount : Z;
  new_current_streak : Z;
  new_longest_streak : Z;
  new_last_activity : Z
}.

(** [{ ...row, [field]: newCount }] on the counters. *)
Definition set_count (type : Feature) (v : Z) (p : Profile) : Profile :=
  match type with
  | quiz => mkProfile (subscription_type p) v (summary_count p) (homework_count p)
  | summary => mkProfile (subscription_type p) (quiz_count p) v (homework_count p)
  | homework => mkProfile (subscription_type p) (quiz_count p) (summary_count p) v
  end.

(** The row of the store once [updates] are applied to it. *)
Definition apply (u : Updates) (row : Row) : Row :=
  mkRow (set_count (field u) (newCount u) (counts row))
    (new_current_streak u) (new_longest_streak u) (Some (new_last_activity u)).

(** The hook: the [profile] state, and the user's row in the store, if
    the store can be reached and holds one. *)
Record State := mkState {
  stored : option Row;
  profile : option Row
}.

(** [updateProfile], lines 36-51, for a signed-in user: the store
    rewrites the row and returns it, and the hook keeps what is
    returned. *)
Definition updateProfile (u : Updates) (st : State) : State :=
  match stored st with
  | Some row => mkState (Some (apply u row)) (Some (apply u row))
  | None => st
  end.

(** [incrementUsage], lines 53-83.  [day t] is the calendar day, in the
    user's time zone, of the time [t], as [toDateString] prints it;
    yesterday is the day before [day now]. *)
Definition incrementUsage (day : Z -> Z) (now : Z) (type : Feature) (st : State)
  : State :=
  match profile st with
  | None => st
  | Some p =>
      let newCount := count_of (counts p) type + 1 in
      let today := day now in
      let lastActivity := option_map day (last_activity p) in
      let newStreak :=
        if decide (lastActivity = Some today) then current_streak p
        else if decide (lastActivity = Some (today - 1)) then current_streak p + 1
        else 1 in
      updateProfile
        (mkUpdates type newCount newStreak
           (Z.max (longest_streak p) newStreak) now)
        st
  end.

End Streak.

(** ** Subjects of the homework tables *)

Module Subjects.

(** The four subjects the tables know. *)
Definition known_subject (subject : string) : Prop :=
  In subject ["mathematics"; "science"; "essay"; "general"].

End Subjects.

(** * Inputs used in the examples *)

(** A request that is answered with the warm-up payload at every attempt,
    and one that is refused with 401 at every attempt. *)
Definition always_loading : nat -> Invoker.Outcome :=
  fun _ => Invoker.Resolve (Invoker.DError "Model facebook/bart-large-cnn is currently loading").

Definition always_unauthorized : nat -> Invoker.Outcome :=
  fun _ => Invoker.Reject (Invoker.mkErr (Some 401) "Request failed with status code 401").

Definition always_timeout : nat -> Invoker.Outcome :=
  fun _ => Invoker.Reject (Invoker.mkErr None "timeout of 60000ms exceeded").

(** A text of two qualifying sentences, the second scoring higher. *)
Definition two_sentences : string :=
  "The cat sat on the mat. This key idea is the main important point.".

(** A network on which every request is refused with 401. *)
Definition unauthorized_network : string -> string -> nat -> Invoker.Outcome :=
  fun _ _ => always_unauthorized.

(** A day, noon of that day, and the stores used in the examples: user
    [u1] has one row today, with the given count and last reset. *)
Definition noon : Z := 20000 * 86400000 + 12 * 3600000.

Definition usage_row (count last_reset : Z) : Usage.Row :=
  Usage.mkRow count last_reset last_reset.

Definition store_with (row : Usage.Row) : Usage.DB :=
  Usage.mkDB true {[ ("u1", 20000) := row ]}.

Definition hours (n : Z) : Z := n * 3600000.

(** The hook after it loaded a row of count 14, reset two hours ago. *)
Definition hook_at_14 : Usage.Hook :=
  snd (Usage.loadUsageData "u1" noon
         (store_with (usage_row 14 (noon - hours 2)), Usage.initial)).

(** A store that cannot be reached. *)
Definition store_down : Usage.DB := Usage.mkDB false ∅.

(** A premium profile. *)
Definition premium_profile : Profile.Profile :=
  Profile.mkProfile Profile.premium 9 9 9.

(** A request answered each time with a [null] body. *)
Definition null_body : nat -> Invoker.Outcome :=
  fun _ => Invoker.Resolve Invoker.DNull.

(** A request that times out once and is then answered. *)
Definition answered_second : nat -> Invoker.Outcome :=
  fun a =>
    if (a =? 1)%nat then always_timeout a
    else Invoker.Resolve (Invoker.DItems [Invoker.mkItem (Some "Cells divide.") None]).

(** A network that answers every request at once with two generated
    lines, and the outcomes of [Math.random() > 0.5] used with it. *)
Definition two_lines : string := JS.lines ["Define a cell"; "Name one organelle"].

Definition answering_network : string -> string -> nat -> Invoker.Outcome :=
  fun _ _ _ => Invoker.Resolve (Invoker.DItems [Invoker.mkItem None (Some two_lines)]).

Definition heads_then_tails : nat -> bool := Nat.even.

(** The hook after it loaded a row of count 13, reset two hours ago. *)
Definition hook_at_13 : Usage.Hook :=
  snd (Usage.loadUsageData "u1" noon
         (store_with (usage_row 13 (noon - hours 2)), Usage.initial)).

(** A reachable store without any row. *)
Definition store_empty : Usage.DB := Usage.mkDB true ∅.

(** A content of a space, a no-break space (U+00A0), an ideographic
    space (U+3000) and a line feed. *)
Definition nbsp_and_spaces : string :=
  String (ascii_of_nat 32)
    (String (ascii_of_nat 194) (String (ascii_of_nat 160)
       (String (ascii_of_nat 227) (String (ascii_of_nat 128) (String (ascii_of_nat 128)
          (String (ascii_of_nat 10) EmptyString)))))).

(** * Properties *)

(** ** The model on a few inputs *)

Example split_runs_of_delimiters :
  Summary.split_sentences "Wait... what?! Yes." = ["Wait"; " what"; " Yes"; EmptyString].
Proof. reflexivity. Qed.

Example trim_both_ends : JS.trim "  two words  " = "two words".
Proof. reflexivity. Qed.

Example succeeds_on_second_attempt :
  Invoker.callHFWithRetry
    (fun a => if (a =? 1)%nat then always_timeout a
              else Invoker.Resolve (Invoker.DItems [Invoker.mkItem (Some "Short.") None]))
    3 =
  ([Invoker.Post 1; Invoker.Sleep 1000; Invoker.Post 2],
   Invoker.Returned (Some (Invoker.DItems [Invoker.mkItem (Some "Short.") None]))).
Proof. reflexivity. Qed.

Example null_body_is_retried :
  Invoker.callHFWithRetry null_body 3 =
  ([Invoker.Post 1; Invoker.Sleep 1000; Invoker.Post 2; Invoker.Sleep 2000;
    Invoker.Post 3],
   Invoker.Thrown "HuggingFace API failed after 3 attempts").
Proof. reflexivity. Qed.

Example rejected_run_of_two :
  Invoker.rejected_run 1 2 =
  [Invoker.Post 1; Invoker.Sleep 1000; Invoker.Post 2; Invoker.Sleep 2000].
Proof. reflexivity. Qed.

Example inherited_subject_is_no_text :
  Homework.generateMockHomeworkHelp "What is osmosis?" "toString" =
    Homework.NotString "toString".
Proof. reflexivity. Qed.

Example length_in_code_units : JS.len "Déjà vu 📝" = 10.
Proof. reflexivity. Qed.

Example trim_no_break_space : JS.trim nbsp_and_spaces = EmptyString.
Proof. reflexivity. Qed.

Example no_attempt_returns_undefined :
  Invoker.callHFWithRetry always_timeout 0 = ([], Invoker.Returned None).
Proof. reflexivity. Qed.

Example summary_of_two_sentences :
  Summary.createExtractiveSummary two_sentences =
    Summary.heading
      ++ "1. This key idea is the main important point." ++ JS.nl
      ++ "2. The cat sat on the mat." ++ JS.nl.
Proof. vm_compute. reflexivity. Qed.

Example load_at_cap_minus_one :
  hook_at_14 = Usage.mkHook 14 true (hours 4) false.
Proof. vm_compute. reflexivity. Qed.

(** ** The retry wrapper *)

Section InvokerFacts.
Import Invoker.

Variable post : nat -> Outcome.
Variable maxRetries : nat.

Lemma posts_cons_post a evs : posts (Post a :: evs) = S (posts evs).
Proof. reflexivity. Qed.

Lemma posts_cons_sleep ms evs : posts (Sleep ms :: evs) = posts evs.
Proof. reflexivity. Qed.

(** One iteration of the loop. *)
Lemma attempts_step attempt left :
  attempts post maxRetries attempt (S left) =
    match post attempt with
    | Resolve data =>
        if unreadable data then
          if (attempt =? maxRetries)%nat then
            ([Post attempt], Thrown (exhausted_message maxRetries))
          else
            let '(evs, r) := attempts post maxRetries (S attempt) left in
            (Post attempt :: Sleep (Z.of_nat attempt * 1000) :: evs, r)
        else if is_loading data && (attempt <? maxRetries)%nat then
          let '(evs, r) := attempts post maxRetries (S attempt) left in
          (Post attempt :: Sleep (Z.of_nat attempt * 2000) :: evs, r)
        else ([Post attempt], Returned (Some data))
    | Reject _ =>
        if (attempt =? maxRetries)%nat then
          ([Post attempt], Thrown (exhausted_message maxRetries))
        else
          let '(evs, r) := attempts post maxRetries (S attempt) left in
          (Post attempt :: Sleep (Z.of_nat attempt * 1000) :: evs, r)
    end.
Proof. reflexivity. Qed.

Lemma loading_readable d : is_loading d = true -> unreadable d = false.
Proof. destruct d; cbn; intros H; first [reflexivity | discriminate H]. Qed.

(** The loop run over failing attempts only: every attempt is made, and
    the last one decides the result. *)
Lemma attempts_all_fail left :
  forall attempt,
    (attempt + left = maxRetries)%nat ->
    (forall a, (attempt <= a <= maxRetries)%nat -> transient (post a) = true) ->
    posts (fst (attempts post maxRetries attempt (S left))) = S left /\
    snd (attempts post maxRetries attempt (S left)) =
      match post maxRetries with
      | Reject _ => Thrown (exhausted_message maxRetries)
      | Resolve d => Returned (Some d)
      end.
Proof.
  induction left as [|left IH]; intros attempt Hsum Hfail.
  - assert (attempt = maxRetries) as -> by lia.
    assert (Ha : transient (post maxRetries) = true) by (apply Hfail; lia).
    rewrite attempts_step. destruct (post maxRetries) as [d|e]; cbn in Ha.
    + rewrite (loading_readable d Ha), Nat.ltb_irrefl, andb_false_r. split; reflexivity.
    + rewrite Nat.eqb_refl. split; reflexivity.
  - assert (Ha : transient (post attempt) = true) by (apply Hfail; lia).
    destruct (IH (S attempt)) as [IHp IHr]; [lia | intros; apply Hfail; lia |].
    rewrite attempts_step.
    destruct (post attempt) as [d|e]; simpl in Ha.
    + rewrite (loading_readable d Ha), Ha.
      replace (attempt <? maxRetries)%nat with true
        by (symmetry; apply Nat.ltb_lt; lia).
      simpl andb. cbv iota.
      destruct (attempts post maxRetries (S attempt) (S left)) as [evs r].
      simpl in *. rewrite posts_cons_post, posts_cons_sleep. split; [lia | exact IHr].
    + replace (attempt =? maxRetries)%nat with false
        by (symmetry; apply Nat.eqb_neq; lia).
      destruct (attempts post maxRetries (S attempt) (S left)) as [evs r].
      simpl in *. rewrite posts_cons_post, posts_cons_sleep. split; [lia | exact IHr].
Qed.

(** The loop run over throwing attempts only. *)
Lemma attempts_all_reject left :
  forall attempt,
    (attempt + left = maxRetries)%nat ->
    (forall a, (attempt <= a <= maxRetries)%nat -> exists e, post a = Reject e) ->
    attempts post maxRetries attempt (S left) =
      ((rejected_run attempt left ++ [Post maxRetries])%list,
       Thrown (exhausted_message maxRetries)).
Proof.
  induction left as [|left IH]; intros attempt Hsum Hrej.
  - assert (attempt = maxRetries) as -> by lia.
    destruct (Hrej maxRetries) as [e He]; [lia|].
    rewrite attempts_step, He, Nat.eqb_refl. reflexivity.
  - destruct (Hrej attempt) as [e He]; [lia|].
    rewrite attempts_step, He.
    replace (attempt =? maxRetries)%nat with false
      by (symmetry; apply Nat.eqb_neq; lia).
    rewrite IH by (try lia; intros; apply Hrej; lia).
    reflexivity.
Qed.

Lemma posts_rejected_run n : forall attempt, posts (rejected_run attempt n) = n.
Proof.
  induction n as [|n IH]; intros attempt; [reflexivity|].
  cbn [rejected_run]. rewrite posts_cons_post, posts_cons_sleep, IH. reflexivity.
Qed.

Lemma posts_app evs evs' : posts (evs ++ evs') = (posts evs + posts evs')%nat.
Proof. unfold posts. rewrite List.filter_app, List.length_app. reflexivity. Qed.

Lemma sleeps_app evs evs' : sleeps (evs ++ evs') = (sleeps evs ++ sleeps evs')%list.
Proof. unfold sleeps. apply flat_map_app. Qed.

Lemma sleeps_rejected_run n :
  forall attempt,
    sleeps (rejected_run attempt n) =
    map (fun a => Z.of_nat a * 1000) (seq attempt n).
Proof.
  induction n as [|n IH]; intros attempt; [reflexivity|].
  cbn [rejected_run seq map]. unfold sleeps in *. cbn [flat_map].
  rewrite IH. reflexivity.
Qed.

End InvokerFacts.

(** C3, as stated, fails: a call that answers "loading" at each of the
    three attempts fails every time, yet [callHFWithRetry] throws nothing
    and returns the raw error payload of the last attempt. *)
Lemma callHFWithRetry_returns_loading_payload :
  Invoker.fails_always always_loading 3 /\
  snd (Invoker.callHFWithRetry always_loading 3) =
    Invoker.Returned
      (Some (Invoker.DError "Model facebook/bart-large-cnn is currently loading")) /\
  ~ (exists msg, snd (Invoker.callHFWithRetry always_loading 3) = Invoker.Thrown msg).
Proof.
  split; [intros a _; reflexivity|].
  split; [vm_compute; reflexivity|].
  intros [msg H]. vm_compute in H. discriminate H.
Qed.

(** C3, amended: when the call fails at each of the [maxRetries >= 1]
    attempts, [callHFWithRetry] makes all [maxRetries] attempts; if the
    last attempt threw, it throws "HuggingFace API failed after
    [maxRetries] attempts"; if the last attempt answered with the warm-up
    payload, it returns that payload. *)
Theorem callHFWithRetry_exhausted (post : nat -> Invoker.Outcome) (maxRetries : nat) :
  (1 <= maxRetries)%nat ->
  Invoker.fails_always post maxRetries ->
  Invoker.posts (fst (Invoker.callHFWithRetry post maxRetries)) = maxRetries /\
  snd (Invoker.callHFWithRetry post maxRetries) =
    match post maxRetries with
    | Invoker.Reject _ => Invoker.Thrown (Invoker.exhausted_message maxRetries)
    | Invoker.Resolve d => Invoker.Returned (Some d)
    end.
Proof.
  intros Hpos Hfail. unfold Invoker.callHFWithRetry.
  destruct maxRetries as [|left]; [lia|].
  apply attempts_all_fail; [lia | exact Hfail].
Qed.

Lemma callHFWithRetry_exhausted_witness :
  (1 <= 3)%nat /\
  Invoker.fails_always always_timeout 3 /\
  Invoker.posts (fst (Invoker.callHFWithRetry always_timeout 3)) = 3%nat /\
  snd (Invoker.callHFWithRetry always_timeout 3) =
    Invoker.Thrown (Invoker.exhausted_message 3).
Proof.
  split; [lia|].
  split; [intros a _; reflexivity|].
  apply (callHFWithRetry_exhausted always_timeout 3); [lia | intros a _; reflexivity].
Defined.

(** C4, as stated, fails: a request refused with 401 at every attempt, a
    fatal error, is sent three times with sleeps of one and two seconds
    in between. *)
Lemma callHFWithRetry_retries_unauthorized :
  (forall a, exists e, always_unauthorized a = Invoker.Reject e /\ Invoker.fatal e = true) /\
  fst (Invoker.callHFWithRetry always_unauthorized 3) =
    [Invoker.Post 1; Invoker.Sleep 1000; Invoker.Post 2; Invoker.Sleep 2000; Invoker.Post 3] /\
  ~ (Invoker.posts (fst (Invoker.callHFWithRetry always_unauthorized 3)) = 1%nat /\
     Invoker.sleeps (fst (Invoker.callHFWithRetry always_unauthorized 3)) = []).
Proof.
  split; [intros a; eexists; split; reflexivity|].
  split; [vm_compute; reflexivity|].
  intros [H _]. vm_compute in H. discriminate H.
Qed.

(** C4, amended: [callHFWithRetry] does not tell fatal errors from
    transient ones.  Whatever the errors thrown, fatal or not, when
    every one of the [maxRetries >= 1] attempts throws, all [maxRetries]
    attempts are made, attempt [a < maxRetries] is followed by a sleep of
    [a * 1000] ms, and the wrapper then throws: the events are request
    1, a sleep of 1000 ms, request 2, a sleep of 2000 ms, ..., request
    [maxRetries], in this order. *)
Theorem callHFWithRetry_retries_every_error
    (post : nat -> Invoker.Outcome) (maxRetries : nat) :
  (1 <= maxRetries)%nat ->
  (forall a, (1 <= a <= maxRetries)%nat -> exists e, post a = Invoker.Reject e) ->
  fst (Invoker.callHFWithRetry post maxRetries) =
    (Invoker.rejected_run 1 (maxRetries - 1) ++ [Invoker.Post maxRetries])%list /\
  Invoker.posts (fst (Invoker.callHFWithRetry post maxRetries)) = maxRetries /\
  Invoker.sleeps (fst (Invoker.callHFWithRetry post maxRetries)) =
    map (fun a => Z.of_nat a * 1000) (seq 1 (maxRetries - 1)) /\
  snd (Invoker.callHFWithRetry post maxRetries) =
    Invoker.Thrown (Invoker.exhausted_message maxRetries).
Proof.
  intros Hpos Hrej. unfold Invoker.callHFWithRetry.
  destruct maxRetries as [|left]; [lia|].
  rewrite (attempts_all_reject post (S left) left 1) by (try lia; exact Hrej).
  cbn [fst snd]. rewrite posts_app, sleeps_app, posts_rejected_run, sleeps_rejected_run.
  replace (S left - 1)%nat with left by lia.
  split; [reflexivity|].
  split; [rewrite posts_cons_post; unfold Invoker.posts; simpl; lia|].
  split; [|reflexivity].
  change (Invoker.sleeps [Invoker.Post (S left)]) with (@nil Z). apply app_nil_r.
Qed.

Lemma callHFWithRetry_retries_every_error_witness :
  (1 <= 3)%nat /\
  (forall a, (1 <= a <= 3)%nat -> exists e, always_unauthorized a = Invoker.Reject e) /\
  fst (Invoker.callHFWithRetry always_unauthorized 3) =
    (Invoker.rejected_run 1 (3 - 1) ++ [Invoker.Post 3])%list /\
  Invoker.posts (fst (Invoker.callHFWithRetry always_unauthorized 3)) = 3%nat /\
  Invoker.sleeps (fst (Invoker.callHFWithRetry always_unauthorized 3)) =
    map (fun a => Z.of_nat a * 1000) (seq 1 (3 - 1)) /\
  snd (Invoker.callHFWithRetry always_unauthorized 3) =
    Invoker.Thrown (Invoker.exhausted_message 3).
Proof.
  split; [lia|].
  split; [intros a _; eexists; reflexivity|].
  apply (callHFWithRetry_retries_every_error always_unauthorized 3);
    [lia | intros a _; eexists; reflexivity].
Defined.

(** ** The quiz fallback *)

(** C5: on every non-empty text and every difficulty, [generateMockQuiz]
    returns exactly 10 questions; the question at index [i] is a short
    answer when [i mod 3 = 0] (indices 0, 3, 6, 9) and otherwise a
    multiple choice with exactly 4 options, one of which is its answer;
    its prompt begins with the starter at [i mod 4] of the four starters
    of the difficulty. *)
Theorem generateMockQuiz_shape (text : string) (d : Quiz.Difficulty) :
  text <> EmptyString ->
  List.length (Quiz.generateMockQuiz text d) = 10%nat /\
  List.length (Quiz.questionStarters d) = 4%nat /\
  forall i, (i < 10)%nat ->
    exists q,
      nth_error (Quiz.generateMockQuiz text d) i = Some q /\
      Quiz.difficulty q = d /\
      Quiz.question q =
        nth (i mod 4) (Quiz.questionStarters d) EmptyString ++
        (if (i mod 3 =? 0)%nat then " the main concepts discussed in the text?"
         else " the primary focus of this material?") /\
      if (i mod 3 =? 0)%nat then
        Quiz.type q = Quiz.short_answer /\ Quiz.options q = None
      else
        Quiz.type q = Quiz.mcq /\
        exists opts,
          Quiz.options q = Some opts /\
          List.length opts = 4%nat /\
          In (Quiz.answer q) opts.
Proof.
  intros _. split; [reflexivity|]. split; [destruct d; reflexivity|].
  intros i Hi.
  do 10 (destruct i as [|i]; [
    eexists; split; [reflexivity|]; split; [reflexivity|];
    split; [destruct d; reflexivity|];
    cbn - [Quiz.mock_options];
    first [ split; reflexivity
          | split; [reflexivity|]; eexists; split; [reflexivity|];
            split; [reflexivity | left; reflexivity] ] |]).
  lia.
Qed.

Lemma generateMockQuiz_shape_witness :
  "Photosynthesis turns light into sugar." <> EmptyString /\
  List.length
    (Quiz.generateMockQuiz "Photosynthesis turns light into sugar." Quiz.medium) = 10%nat.
Proof.
  split; [discriminate|].
  apply (generateMockQuiz_shape "Photosynthesis turns light into sugar." Quiz.medium).
  discriminate.
Defined.

(** C10: the quiz fallback ignores the study material: for the same
    difficulty, any two texts give the same list of questions. *)
Theorem generateMockQuiz_ignores_text (text1 text2 : string) (d : Quiz.Difficulty) :
  Quiz.generateMockQuiz text1 d = Quiz.generateMockQuiz text2 d.
Proof. reflexivity. Qed.

(** ** The extractive summary *)

Section SortFacts.
Import Summary.

Lemma insert_perm (x : Scored) l : Permutation (insert by_score x l) (x :: l).
Proof.
  induction l as [|y l IH]; cbn [insert]; [reflexivity|].
  destruct (by_score x y <=? 0); [reflexivity|].
  rewrite IH. apply perm_swap.
Qed.

Lemma sort_perm (l : list Scored) : Permutation (sort by_score l) l.
Proof.
  induction l as [|x l IH]; cbn [sort]; [reflexivity|].
  rewrite insert_perm. apply perm_skip, IH.
Qed.

Lemma insert_sorted (x : Scored) l :
  StronglySorted Summary.no_lower l -> StronglySorted Summary.no_lower (insert by_score x l).
Proof.
  induction 1 as [|y l Hs IH Hy]; cbn [insert].
  - constructor; constructor.
  - destruct (Z.leb_spec (by_score x y) 0) as [Hle|Hgt]; unfold by_score in *.
    + constructor; [constructor; assumption|].
      constructor; [unfold Summary.no_lower; lia|].
      eapply List.Forall_impl; [|exact Hy]. unfold Summary.no_lower. intros z Hz. lia.
    + constructor; [exact IH|].
      rewrite insert_perm. constructor; [unfold Summary.no_lower; lia | exact Hy].
Qed.

Lemma sort_sorted (l : list Scored) : StronglySorted Summary.no_lower (sort by_score l).
Proof.
  induction l as [|x l IH]; cbn [sort]; [constructor|].
  apply insert_sorted, IH.
Qed.

(** Inserting [x] puts it ahead of the elements with its score. *)
Lemma insert_stable (v : Z) (x : Scored) l :
  List.filter (Summary.scoring v) (insert by_score x l) = List.filter (Summary.scoring v) (x :: l).
Proof.
  induction l as [|y l IH]; cbn [insert]; [reflexivity|].
  destruct (Z.leb_spec (by_score x y) 0) as [Hle|Hgt]; [reflexivity|].
  unfold by_score in Hgt. cbn [List.filter] in *. rewrite IH.
  unfold Summary.scoring.
  destruct (Z.eqb_spec (score y) v), (Z.eqb_spec (score x) v);
    try reflexivity; lia.
Qed.

Lemma sort_stable (v : Z) (l : list Scored) :
  List.filter (Summary.scoring v) (sort by_score l) = List.filter (Summary.scoring v) l.
Proof.
  induction l as [|x l IH]; cbn [sort]; [reflexivity|].
  rewrite insert_stable. cbn [List.filter]. rewrite IH. reflexivity.
Qed.

Lemma score_from_length n l : forall start,
  List.length (score_from n start l) = List.length l.
Proof. induction l as [|s l IH]; intros start; cbn; [|rewrite IH]; reflexivity. Qed.

Lemma score_from_sentences n l : forall start,
  map sentence (score_from n start l) = map JS.trim l.
Proof. induction l as [|s l IH]; intros start; cbn; [|rewrite IH]; reflexivity. Qed.

End SortFacts.

(** C6, as stated, fails: a text with two qualifying sentences, at most
    8, is not summarised in document order; the second sentence scores
    higher and comes first. *)
Lemma createExtractiveSummary_reorders_short_text :
  (List.length (Summary.sentences two_sentences) <= 8)%nat /\
  map JS.trim (Summary.sentences two_sentences) =
    ["The cat sat on the mat"; "This key idea is the main important point"] /\
  Summary.topSentences two_sentences =
    ["This key idea is the main important point"; "The cat sat on the mat"] /\
  Summary.topSentences two_sentences <> map JS.trim (Summary.sentences two_sentences).
Proof.
  split; [vm_compute; lia|].
  split; [vm_compute; reflexivity|].
  split; [vm_compute; reflexivity|].
  intros H. vm_compute in H. discriminate H.
Qed.

(** C6, amended: for every text, with [n] qualifying sentences (the
    fragments between runs of [.!?] whose trimmed length exceeds 15), the
    summary lists [min 8 n] sentences: the first 8 of the qualifying
    sentences, trimmed, ranked by descending score, sentences of equal
    score keeping their document order.  This is so whether [n] exceeds
    8 or not: with at most 8 sentences all of them are listed, in ranked
    order. *)
Theorem createExtractiveSummary_ranked (text : string) :
  Summary.createExtractiveSummary text =
    Summary.heading ++ Summary.render (Summary.topSentences text) /\
  List.length (Summary.topSentences text) =
    Nat.min 8 (List.length (Summary.sentences text)) /\
  Summary.topSentences text = firstn 8 (map Summary.sentence (Summary.ranked text)) /\
  Permutation (map Summary.sentence (Summary.ranked text))
    (map JS.trim (Summary.sentences text)) /\
  StronglySorted Summary.no_lower (Summary.ranked text) /\
  forall v,
    List.filter (Summary.scoring v) (Summary.ranked text) =
    List.filter (Summary.scoring v) (Summary.scoredSentences text).
Proof.
  assert (Hlen : List.length (Summary.ranked text) = List.length (Summary.sentences text)).
  { unfold Summary.ranked. rewrite (Permutation_length (sort_perm _)).
    apply score_from_length. }
  split; [reflexivity|].
  split.
  { unfold Summary.topSentences. rewrite List.length_map, List.length_firstn, Hlen. lia. }
  split.
  { unfold Summary.topSentences. rewrite <- firstn_map.
    destruct (Nat.le_gt_cases (List.length (Summary.sentences text)) 8) as [Hle|Hgt].
    - rewrite Nat.min_r by exact Hle.
      rewrite !firstn_all2; [reflexivity | rewrite List.length_map; lia | rewrite List.length_map; lia].
    - rewrite Nat.min_l by lia. reflexivity. }
  split.
  { unfold Summary.ranked. rewrite (Permutation_map _ (sort_perm _)).
    unfold Summary.scoredSentences. rewrite score_from_sentences. reflexivity. }
  split; [apply sort_sorted|].
  intros v. apply sort_stable.
Qed.

(** ** The generation entry points *)

Section PipelineFacts.
Import Invoker Pipeline.

Variable post : string -> string -> nat -> Outcome.

(** No entry point throws, whatever the network does. *)
Lemma serve_returns (req : Request) :
  exists content, snd (serve post req) = Returned content.
Proof.
  destruct req as [text|random text d|question subject]; cbn [serve].
  - unfold summarizeText, try_catch, bind, ret.
    destruct (callHFWithRetry _ 3) as [evs [result|msg]]; cbn;
      [destruct (first_field summary_text result)|]; cbn; eexists; reflexivity.
  - unfold generateQuiz, try_catch, bind, ret.
    destruct (callHFWithRetry _ 3) as [evs [result|msg]]; cbn;
      [destruct (first_field generated_text result)|]; cbn; eexists; reflexivity.
  - unfold getHomeworkHelp, try_catch, bind, ret.
    destruct (callHFWithRetry _ 3) as [evs [result|msg]]; cbn;
      [destruct (first_field generated_text result)|]; cbn; eexists; reflexivity.
Qed.

End PipelineFacts.



(** ** The usage hook *)

Section UsageFacts.
Import Usage.

Variable userId : string.
Variable now : Z.

Lemma update_row_reachable db row change :
  reachable db = true ->
  daily_usage db !! (userId, today now) = Some row ->
  update_row db (userId, today now) change =
    (mkDB true (<[(userId, today now) := change row]> (daily_usage db)),
     mkReply (Some (change row)) None).
Proof. intros Hr Hrow. unfold update_row. rewrite Hr, Hrow. reflexivity. Qed.

Lemma update_row_unreachable db change :
  reachable db = false ->
  update_row db (userId, today now) change = (db, mkReply None (Some OtherError)).
Proof. intros Hr. unfold update_row. rewrite Hr. reflexivity. Qed.

(** An allowed [incrementUsage] overwrites the stored count with the
    hook's [totalUsage + 1], whatever count the store holds. *)
Lemma incrementUsage_writes db h row :
  reachable db = true ->
  daily_usage db !! (userId, today now) = Some row ->
  canUse h = true ->
  incrementUsage userId now (db, h) =
    (mkDB true
       (<[(userId, today now) := mkRow (totalUsage h + 1) (last_reset row) now]>
          (daily_usage db)),
     setCanUse (totalUsage h + 1 <? 15) (setTotalUsage (totalUsage h + 1) h),
     true).
Proof.
  intros Hr Hrow Hcan. unfold incrementUsage. rewrite Hcan. cbn [negb].
  rewrite (update_row_reachable db row) by assumption. reflexivity.
Qed.

Lemma incrementUsage_denied db h :
  canUse h = false -> incrementUsage userId now (db, h) = (db, h, false).
Proof. intros Hcan. unfold incrementUsage. rewrite Hcan. reflexivity. Qed.

(** Calls made from one render all succeed while that render allows. *)
Lemma concurrent_all_allowed h n :
  canUse h = true ->
  forall db row,
    reachable db = true ->
    daily_usage db !! (userId, today now) = Some row ->
    snd (concurrent userId now h n db) = repeat true n /\
    reachable (fst (concurrent userId now h n db)) = true /\
    daily_usage (fst (concurrent userId now h n db)) !! (userId, today now) =
      Some (match n with
            | O => row
            | S _ => mkRow (totalUsage h + 1) (last_reset row) now
            end).
Proof.
  intros Hcan. induction n as [|n IH]; intros db row Hr Hrow.
  - cbn. auto.
  - cbn [concurrent]. rewrite (incrementUsage_writes db h row) by assumption.
    set (row' := mkRow (totalUsage h + 1) (last_reset row) now).
    set (db' := mkDB true (<[(userId, today now) := row']> (daily_usage db))).
    destruct (IH db' row') as (Hoks & Hr' & Hrow').
    { reflexivity. }
    { apply lookup_insert_eq. }
    destruct (concurrent userId now h n db') as [db'' oks]. cbn [fst snd] in *.
    split; [rewrite Hoks; reflexivity|]. split; [exact Hr'|].
    rewrite Hrow'. destruct n; reflexivity.
Qed.

(** Once the hook denies, further calls are refused and change nothing. *)
Lemma sequential_denied n db h :
  canUse h = false ->
  sequential userId now n (db, h) = ((db, h), repeat false n).
Proof.
  intros Hcan. induction n as [|n IH]; [reflexivity|].
  cbn [sequential]. rewrite incrementUsage_denied by exact Hcan.
  rewrite IH. reflexivity.
Qed.

End UsageFacts.

(** C1, as stated, fails: with the store at count 14 = cap - 1 and the
    hook in sync with it, two calls of [incrementUsage] made from the
    same render both return true, and the store ends at 15. *)
Lemma incrementUsage_two_racing_calls_allowed :
  Usage.in_sync "u1" noon (store_with (usage_row 14 (noon - hours 2))) hook_at_14
    (usage_row 14 (noon - hours 2)) /\
  snd (Usage.concurrent "u1" noon hook_at_14 2
         (store_with (usage_row 14 (noon - hours 2)))) = [true; true] /\
  Usage.total_count <$>
    (Usage.daily_usage
       (fst (Usage.concurrent "u1" noon hook_at_14 2
               (store_with (usage_row 14 (noon - hours 2)))))
       !! ("u1", Usage.today noon)) = Some 15.
Proof.
  split; [repeat split; vm_compute; reflexivity|].
  split; vm_compute; reflexivity.
Qed.

(** C1, amended: [incrementUsage] is not one atomic update; it reads
    [canUse] and [totalUsage] from the render its closure comes from and
    writes [totalUsage + 1].  From a hook in sync with the store at count
    14, calls made one after the other, each from the render left by the
    previous one, allow exactly the first and refuse the rest; calls made
    from the same render are all allowed, and each writes 15. *)
Theorem incrementUsage_at_cap
    (userId : string) (now : Z) (db : Usage.DB) (h : Usage.Hook) (row : Usage.Row)
    (n : nat) :
  Usage.in_sync userId now db h row ->
  Usage.total_count row = 14 ->
  snd (Usage.sequential userId now (S n) (db, h)) = true :: repeat false n /\
  Usage.total_count <$>
    (Usage.daily_usage (fst (fst (Usage.sequential userId now (S n) (db, h))))
       !! (userId, Usage.today now)) = Some 15 /\
  snd (Usage.concurrent userId now h (S n) db) = true :: repeat true n /\
  Usage.total_count <$>
    (Usage.daily_usage (fst (Usage.concurrent userId now h (S n) db))
       !! (userId, Usage.today now)) = Some 15.
Proof.
  intros (Hr & Hrow & Htotal & Hcan) H14.
  rewrite H14 in Htotal, Hcan. change (14 <? 15) with true in Hcan.
  assert (Hseq :
    Usage.sequential userId now (S n) (db, h) =
      ((Usage.mkDB true
          (<[(userId, Usage.today now) := Usage.mkRow 15 (Usage.last_reset row) now]>
             (Usage.daily_usage db)),
        Usage.setCanUse false (Usage.setTotalUsage 15 h)),
       true :: repeat false n)).
  { cbn [Usage.sequential].
    rewrite (incrementUsage_writes userId now db h row) by assumption.
    rewrite Htotal. change (14 + 1) with 15. change (15 <? 15) with false.
    rewrite sequential_denied by reflexivity. reflexivity. }
  rewrite Hseq. cbn [fst snd Usage.daily_usage].
  split; [reflexivity|].
  split; [rewrite lookup_insert_eq; reflexivity|].
  destruct (concurrent_all_allowed userId now h (S n) Hcan db row Hr Hrow)
    as (Hoks & _ & Hrow').
  split; [exact Hoks|].
  rewrite Hrow', Htotal. reflexivity.
Qed.

Lemma incrementUsage_at_cap_witness :
  Usage.in_sync "u1" noon (store_with (usage_row 14 (noon - hours 2))) hook_at_14
    (usage_row 14 (noon - hours 2)) /\
  Usage.total_count (usage_row 14 (noon - hours 2)) = 14 /\
  snd (Usage.sequential "u1" noon 3
         (store_with (usage_row 14 (noon - hours 2)), hook_at_14)) =
    [true; false; false].
Proof.
  assert (Hsync :
    Usage.in_sync "u1" noon (store_with (usage_row 14 (noon - hours 2))) hook_at_14
      (usage_row 14 (noon - hours 2)))
    by (repeat split; vm_compute; reflexivity).
  split; [exact Hsync|]. split; [reflexivity|].
  apply (incrementUsage_at_cap "u1" noon _ hook_at_14 _ 2 Hsync). reflexivity.
Defined.

(** C2, as stated, fails: a record of count 5 whose last reset is seven
    hours old is loaded with its count: the hook shows 5, not 0, and the
    stored row is left as it was. *)
Lemma loadUsageData_keeps_expired_count :
  Usage.sixHours <= noon - Usage.last_reset (usage_row 5 (noon - hours 7)) /\
  Usage.totalUsage
    (snd (Usage.loadUsageData "u1" noon
            (store_with (usage_row 5 (noon - hours 7)), Usage.initial))) = 5 /\
  fst (Usage.loadUsageData "u1" noon
         (store_with (usage_row 5 (noon - hours 7)), Usage.initial)) =
    store_with (usage_row 5 (noon - hours 7)).
Proof.
  split; [vm_compute; discriminate|].
  split; vm_compute; reflexivity.
Qed.

(** C2, amended: for every record with [now - lastReset >= 6 hours],
    [loadUsageData] resets the count to 0, in the store and in the hook,
    when the count has reached 15; a count below 15 is loaded as it is
    and the record is not touched.  The request is allowed in both
    cases. *)
Theorem loadUsageData_expired
    (userId : string) (now : Z) (db : Usage.DB) (h : Usage.Hook) (row : Usage.Row) :
  Usage.reachable db = true ->
  Usage.daily_usage db !! (userId, Usage.today now) = Some row ->
  Usage.sixHours <= now - Usage.last_reset row ->
  Usage.canUse (snd (Usage.loadUsageData userId now (db, h))) = true /\
  if 15 <=? Usage.total_count row then
    Usage.totalUsage (snd (Usage.loadUsageData userId now (db, h))) = 0 /\
    Usage.timeUntilReset (snd (Usage.loadUsageData userId now (db, h))) = Usage.sixHours /\
    Usage.daily_usage (fst (Usage.loadUsageData userId now (db, h)))
      !! (userId, Usage.today now) = Some (Usage.mkRow 0 now now)
  else
    Usage.totalUsage (snd (Usage.loadUsageData userId now (db, h))) =
      Usage.total_count row /\
    fst (Usage.loadUsageData userId now (db, h)) = db.
Proof.
  intros Hr Hrow Hexp.
  unfold Usage.loadUsageData, Usage.select_single. rewrite Hr, Hrow.
  cbn [Usage.error Usage.data].
  replace (Usage.sixHours <=? now - Usage.last_reset row) with true
    by (symmetry; apply Z.leb_le; exact Hexp).
  cbn [andb].
  destruct (Z.leb_spec 15 (Usage.total_count row)) as [Hcap|Hlow].
  - unfold Usage.resetUsage.
    rewrite (update_row_reachable userId now db row) by assumption.
    cbn. rewrite lookup_insert_eq. auto.
  - cbn. replace (Usage.total_count row <? 15) with true
      by (symmetry; apply Z.ltb_lt; exact Hlow).
    auto.
Qed.

Lemma loadUsageData_expired_witness :
  Usage.reachable (store_with (usage_row 15 (noon - hours 7))) = true /\
  Usage.sixHours <= noon - Usage.last_reset (usage_row 15 (noon - hours 7)) /\
  Usage.canUse
    (snd (Usage.loadUsageData "u1" noon
            (store_with (usage_row 15 (noon - hours 7)), Usage.initial))) = true.
Proof.
  split; [reflexivity|]. split; [vm_compute; discriminate|].
  apply (loadUsageData_expired "u1" noon
           (store_with (usage_row 15 (noon - hours 7))) Usage.initial
           (usage_row 15 (noon - hours 7))).
  - reflexivity.
  - vm_compute. reflexivity.
  - vm_compute. discriminate.
Defined.

(** C8, as stated, fails: with the store unreachable, a hook that has
    just been mounted still allows the request after its load failed,
    and the handler goes on to show generated content. *)
Lemma unreachable_store_allows :
  Usage.reachable store_down = false /\
  Usage.canUse
    (snd (Usage.loadUsageData "u1" noon (store_down, Usage.initial))) = true /\
  Usage.allowed
    (snd (Usage.loadUsageData "u1" noon (store_down, Usage.initial)))
    two_sentences = true /\
  snd (Tab.handleSummarize unauthorized_network "u1" noon two_sentences
         (Usage.loadUsageData "u1" noon (store_down, Usage.initial))) =
    Some (Pipeline.summarizeText unauthorized_network two_sentences).
Proof. repeat split; vm_compute; reflexivity. Qed.

(** C8, amended: when the store cannot be reached, [loadUsageData]
    leaves [totalUsage], [canUse] and [timeUntilReset] as they were, so
    a hook that has just been mounted keeps [canUse = true] and allows
    every non-blank request; [incrementUsage] then records nothing and
    returns false. *)
Theorem unreachable_store_leaves_hook
    (userId : string) (now : Z) (db : Usage.DB) (h : Usage.Hook) (content : string) :
  Usage.reachable db = false ->
  Usage.loadUsageData userId now (db, h) = (db, Usage.setLoading false h) /\
  Usage.incrementUsage userId now (db, h) = (db, h, false) /\
  Usage.allowed (snd (Usage.loadUsageData userId now (db, Usage.initial))) content =
    JS.truthy (JS.trim content).
Proof.
  intros Hr.
  assert (Hload : forall h', Usage.loadUsageData userId now (db, h') =
                             (db, Usage.setLoading false h')).
  { intros h'. unfold Usage.loadUsageData, Usage.select_single.
    rewrite Hr. reflexivity. }
  split; [apply Hload|]. split.
  - unfold Usage.incrementUsage. destruct (Usage.canUse h); [|reflexivity].
    cbn [negb]. rewrite update_row_unreachable by exact Hr. reflexivity.
  - rewrite Hload. unfold Usage.allowed. cbn. apply andb_true_r.
Qed.

Lemma unreachable_store_leaves_hook_witness :
  Usage.reachable store_down = false /\
  Usage.loadUsageData "u1" noon (store_down, Usage.initial) =
    (store_down, Usage.setLoading false Usage.initial).
Proof.
  split; [reflexivity|].
  apply (unreachable_store_leaves_hook "u1" noon store_down Usage.initial two_sentences).
  reflexivity.
Defined.

(** ** Premium identities *)

(** [canUseFeature] lets a premium profile through whatever its counts. *)
Lemma canUseFeature_premium (p : Profile.Profile) (type : Profile.Feature) :
  Profile.subscription_type p = Profile.premium ->
  Profile.canUseFeature (Some p) type = true.
Proof. intros Hp. unfold Profile.canUseFeature. rewrite Hp. reflexivity. Qed.

(** The usage hook never reads the profile: a count of 15 that has not
    expired denies, for every user. *)
Lemma loadUsageData_denies_at_cap
    (userId : string) (now : Z) (db : Usage.DB) (h : Usage.Hook) (row : Usage.Row) :
  Usage.reachable db = true ->
  Usage.daily_usage db !! (userId, Usage.today now) = Some row ->
  15 <= Usage.total_count row ->
  now - Usage.last_reset row < Usage.sixHours ->
  Usage.canUse (snd (Usage.loadUsageData userId now (db, h))) = false.
Proof.
  intros Hr Hrow Hcap Hfresh.
  unfold Usage.loadUsageData, Usage.select_single. rewrite Hr, Hrow.
  cbn [Usage.error Usage.data].
  replace (Usage.sixHours <=? now - Usage.last_reset row) with false
    by (symmetry; apply Z.leb_gt; exact Hfresh).
  cbn. apply Z.ltb_ge. exact Hcap.
Qed.

(** C7 at a premium identity whose count reached 15 an hour after the
    last reset: [canUseFeature] allows it, but the hook that guards the
    tabs sets [canUse] to false, and the handler returns without
    generating anything. *)
Lemma premium_blocked_at_cap :
  Profile.canUseFeature (Some premium_profile) Profile.summary = true /\
  Usage.canUse
    (snd (Usage.loadUsageData "u1" noon
            (store_with (usage_row 15 (noon - hours 1)), Usage.initial))) = false /\
  snd (Tab.handleSummarize unauthorized_network "u1" noon two_sentences
         (Usage.loadUsageData "u1" noon
            (store_with (usage_row 15 (noon - hours 1)), Usage.initial))) = None.
Proof. repeat split; vm_compute; reflexivity. Qed.

(** * Further properties of the code *)

(** ** The retry wrapper: bounds and provenance of the result *)

Section InvokerBounds.
Import Invoker Backoff.

Variable post : nat -> Outcome.
Variable maxRetries : nat.

Lemma sleeps_cons_post a evs : sleeps (Post a :: evs) = sleeps evs.
Proof. reflexivity. Qed.

Lemma sleeps_cons_sleep ms evs : sleeps (Sleep ms :: evs) = ms :: sleeps evs.
Proof. reflexivity. Qed.

(** The three ways an iteration ends: with a result after its request,
    or with a sleep of [attempt * 1000] or [attempt * 2000] ms and the
    next iteration, the latter two only before the last attempt. *)
Lemma attempts_cases attempt left :
  (attempt + left = maxRetries)%nat ->
  (exists r, attempts post maxRetries attempt (S left) = ([Post attempt], r)) \/
  ((attempt < maxRetries)%nat /\
   exists k,
     (k = 1000 \/ k = 2000) /\
     attempts post maxRetries attempt (S left) =
       (Post attempt :: Sleep (Z.of_nat attempt * k)
          :: fst (attempts post maxRetries (S attempt) left),
        snd (attempts post maxRetries (S attempt) left))).
Proof.
  intros Hsum. rewrite attempts_step.
  assert (Hcatch :
    (exists r,
       (if (attempt =? maxRetries)%nat
        then ([Post attempt], Thrown (exhausted_message maxRetries))
        else
          let '(evs, r) := attempts post maxRetries (S attempt) left in
          (Post attempt :: Sleep (Z.of_nat attempt * 1000) :: evs, r)) =
       ([Post attempt], r)) \/
    ((attempt < maxRetries)%nat /\
     exists k,
       (k = 1000 \/ k = 2000) /\
       (if (attempt =? maxRetries)%nat
        then ([Post attempt], Thrown (exhausted_message maxRetries))
        else
          let '(evs, r) := attempts post maxRetries (S attempt) left in
          (Post attempt :: Sleep (Z.of_nat attempt * 1000) :: evs, r)) =
       (Post attempt :: Sleep (Z.of_nat attempt * k)
          :: fst (attempts post maxRetries (S attempt) left),
        snd (attempts post maxRetries (S attempt) left)))).
  { destruct (Nat.eqb_spec attempt maxRetries) as [Heq|Hne]; [left; eauto|].
    right. split; [lia|]. exists 1000. split; [auto|].
    destruct (attempts post maxRetries (S attempt) left); reflexivity. }
  destruct (post attempt) as [d|e]; [|exact Hcatch].
  destruct (unreadable d); [exact Hcatch|].
  destruct (is_loading d); cbn [andb]; [|left; eauto].
  destruct (Nat.ltb_spec attempt maxRetries) as [Hlt|Hge]; [|left; eauto].
  right. split; [exact Hlt|]. exists 2000. split; [auto|].
  destruct (attempts post maxRetries (S attempt) left); reflexivity.
Qed.

(** The events of the loop: requests numbered in order, one sleep after
    each but the last. *)
Lemma attempts_shape left :
  forall attempt,
    (attempt + left = maxRetries)%nat ->
    exists delays,
      fst (attempts post maxRetries attempt (S left)) = weave attempt delays /\
      (List.length delays <= left)%nat /\
      backoff_delays attempt delays.
Proof.
  induction left as [|left IH]; intros attempt Hsum;
    destruct (attempts_cases attempt _ Hsum) as [[r ->] | (Hlt & k & Hk & ->)].
  - exists []. cbn. auto.
  - lia.
  - exists []. cbn. split; [reflexivity|]. split; [lia | exact I].
  - destruct (IH (S attempt)) as (delays & Hw & Hl & Hb); [lia|].
    exists (Z.of_nat attempt * k :: delays). cbn [fst weave List.length backoff_delays].
    rewrite Hw. split; [reflexivity|]. split; [lia|].
    split; [destruct Hk as [-> | ->]; auto | exact Hb].
Qed.

Lemma posts_weave delays :
  forall attempt, posts (weave attempt delays) = S (List.length delays).
Proof.
  induction delays as [|d delays IH]; intros attempt; [reflexivity|].
  cbn [weave List.length]. rewrite posts_cons_post, posts_cons_sleep, IH. reflexivity.
Qed.

Lemma sleeps_weave delays : forall attempt, sleeps (weave attempt delays) = delays.
Proof.
  induction delays as [|d delays IH]; intros attempt; [reflexivity|].
  cbn [weave]. rewrite sleeps_cons_post, sleeps_cons_sleep, IH. reflexivity.
Qed.

(** The sleeps after the attempts [attempt], [attempt + 1], ... add up
    to at most [2000 * (attempt + (attempt + 1) + ...)]. *)
Lemma backoff_delays_total delays :
  forall attempt,
    backoff_delays attempt delays ->
    0 <= fold_right Z.add 0 delays /\
    fold_right Z.add 0 delays + 1000 * Z.of_nat attempt * (Z.of_nat attempt - 1) <=
      1000 * (Z.of_nat attempt + Z.of_nat (List.length delays))
           * (Z.of_nat attempt + Z.of_nat (List.length delays) - 1).
Proof.
  induction delays as [|d delays IH]; intros attempt Hb.
  - cbn. split; [lia|]. nia.
  - destruct Hb as [Hd Hb]. destruct (IH (S attempt) Hb) as [H0 Hsum].
    cbn [fold_right List.length]. split; [destruct Hd; nia|].
    destruct Hd as [-> | ->]; nia.
Qed.

(** Inside the loop: the requests left bound the requests sent, each
    request but the last is followed by one sleep, and the sleeps add up
    to at most [2000 * (attempt + ... + (maxRetries - 1))]. *)
Lemma attempts_bounded left :
  forall attempt,
    (attempt + left = maxRetries)%nat ->
    (1 <= posts (fst (attempts post maxRetries attempt (S left))) <= S left)%nat /\
    List.length (sleeps (fst (attempts post maxRetries attempt (S left)))) =
      Nat.pred (posts (fst (attempts post maxRetries attempt (S left)))) /\
    0 <= slept (fst (attempts post maxRetries attempt (S left))) /\
    slept (fst (attempts post maxRetries attempt (S left))) +
      1000 * Z.of_nat attempt * (Z.of_nat attempt - 1) <=
      1000 * Z.of_nat maxRetries * (Z.of_nat maxRetries - 1).
Proof.
  intros attempt Hsum.
  destruct (attempts_shape left attempt Hsum) as (delays & -> & Hl & Hb).
  destruct (backoff_delays_total delays attempt Hb) as [H0 Htotal].
  unfold slept. rewrite posts_weave, sleeps_weave. cbn [Nat.pred].
  split; [lia|]. split; [reflexivity|]. split; [exact H0|].
  assert (Hmono : forall x y, 0 <= x <= y -> x * (x - 1) <= y * (y - 1)).
  { intros x y Hxy. destruct (Z.eq_dec y 0) as [-> | Hy].
    - assert (x = 0) as -> by lia. lia.
    - assert (0 <= (y - x) * (y + x - 1)) by (apply Z.mul_nonneg_nonneg; lia).
      replace (y * (y - 1)) with (x * (x - 1) + (y - x) * (y + x - 1)) by ring.
      lia. }
  pose proof (Hmono (Z.of_nat attempt + Z.of_nat (List.length delays))
                (Z.of_nat maxRetries) ltac:(lia)) as Hm.
  lia.
Qed.

(** Inside the loop: the run stops at the first attempt whose answer can
    be read and is not the warm-up payload. *)
Lemma attempts_first_success (k : nat) (d : HFData) n :
  forall attempt left,
    (attempt + left = maxRetries + 1)%nat ->
    (attempt + n = k)%nat ->
    (k <= maxRetries)%nat ->
    (forall a, (attempt <= a < k)%nat -> failed (post a) = true) ->
    post k = Resolve d ->
    unreadable d = false ->
    is_loading d = false ->
    posts (fst (attempts post maxRetries attempt left)) = S n /\
    snd (attempts post maxRetries attempt left) = Returned (Some d).
Proof.
  induction n as [|n IH]; intros attempt left Hsum Hk Hle Hfail Hpost Hread Hload.
  - assert (attempt = k) as -> by lia.
    destruct left as [|left]; [lia|].
    rewrite attempts_step, Hpost, Hread, Hload. cbn. auto.
  - destruct left as [|left]; [lia|].
    assert (Ha : failed (post attempt) = true) by (apply Hfail; lia).
    destruct (IH (S attempt) left) as [IHp IHr]; try assumption; try lia.
    { intros a Hrange. apply Hfail. lia. }
    rewrite attempts_step.
    replace (attempt =? maxRetries)%nat with false
      by (symmetry; apply Nat.eqb_neq; lia).
    replace (attempt <? maxRetries)%nat with true
      by (symmetry; apply Nat.ltb_lt; lia).
    destruct (attempts post maxRetries (S attempt) left) as [evs r].
    cbn [fst snd] in *.
    destruct (post attempt) as [d'|e]; cbn in Ha.
    + destruct (unreadable d'); cbn [orb] in Ha;
        [|rewrite Ha; cbn [andb]];
        cbn [fst snd]; rewrite posts_cons_post, posts_cons_sleep; auto.
    + cbn [fst snd]. rewrite posts_cons_post, posts_cons_sleep. auto.
Qed.

(** Inside the loop: where each kind of completion comes from. *)
Lemma attempts_provenance left :
  forall attempt,
    (attempt + left = maxRetries + 1)%nat ->
    match snd (attempts post maxRetries attempt left) with
    | Thrown msg =>
        msg = exhausted_message maxRetries /\
        (attempt <= maxRetries)%nat /\
        caught (post maxRetries) = true
    | Returned None => left = O
    | Returned (Some d) =>
        exists a, (attempt <= a <= maxRetries)%nat /\
                  post a = Resolve d /\
                  (is_loading d = true -> a = maxRetries)
    end.
Proof.
  induction left as [|left IH]; intros attempt Hsum; [reflexivity|].
  rewrite attempts_step. specialize (IH (S attempt)).
  assert (Hnext :
    (attempt < maxRetries)%nat ->
    forall k,
      match
        snd (let '(evs, r) := attempts post maxRetries (S attempt) left in
             (Post attempt :: Sleep k :: evs, r))
      with
      | Thrown msg =>
          msg = exhausted_message maxRetries /\
          (attempt <= maxRetries)%nat /\
          caught (post maxRetries) = true
      | Returned None => S left = O
      | Returned (Some d) =>
          exists a, (attempt <= a <= maxRetries)%nat /\
                    post a = Resolve d /\
                    (is_loading d = true -> a = maxRetries)
      end).
  { intros Hlt k.
    destruct (attempts post maxRetries (S attempt) left) as [evs [[d'|]|msg]];
      cbn [snd] in *.
    - destruct IH as (a & Ha & Hd & Hl); [lia|]. exists a. repeat split; auto; lia.
    - lia.
    - destruct IH as (Hm & Hle & He); [lia|]. repeat split; auto; lia. }
  destruct (post attempt) as [d|e] eqn:Hpost.
  - destruct (unreadable d) eqn:Hread.
    + destruct (Nat.eqb_spec attempt maxRetries) as [Heq|Hne]; [|apply Hnext; lia].
      cbn [snd]. subst attempt. rewrite Hpost. cbn [caught]. auto.
    + destruct (is_loading d) eqn:Hload; cbn [andb].
      * destruct (Nat.ltb_spec attempt maxRetries) as [Hlt|Hge]; [apply Hnext; lia|].
        cbn [snd]. exists attempt. split; [lia|]. split; [exact Hpost|].
        intros _. lia.
      * cbn [snd]. exists attempt. split; [lia|]. split; [exact Hpost|].
        intros H. congruence.
  - destruct (Nat.eqb_spec attempt maxRetries) as [Heq|Hne]; [|apply Hnext; lia].
    cbn [snd]. subst attempt. rewrite Hpost. cbn [caught]. auto.
Qed.

End InvokerBounds.

(** X1: whatever the network does, the events of [callHFWithRetry]
    are its requests, numbered 1, 2, ... in order and at most
    [maxRetries] of them, with exactly one sleep between each request
    and the next and none after the last; the sleep after attempt [a]
    lasts [a * 1000] or [a * 2000] ms, and the sleeps add up to at most
    [1000 * maxRetries * (maxRetries - 1)] ms.  With [maxRetries = 0]
    nothing happens. *)
Theorem callHFWithRetry_bounded (post : nat -> Invoker.Outcome) (maxRetries : nat) :
  ((maxRetries = 0%nat /\ fst (Invoker.callHFWithRetry post maxRetries) = []) \/
   exists delays,
     fst (Invoker.callHFWithRetry post maxRetries) = Backoff.weave 1 delays /\
     (List.length delays < maxRetries)%nat /\
     Backoff.backoff_delays 1 delays) /\
  (Invoker.posts (fst (Invoker.callHFWithRetry post maxRetries)) <= maxRetries)%nat /\
  List.length (Invoker.sleeps (fst (Invoker.callHFWithRetry post maxRetries))) =
    Nat.pred (Invoker.posts (fst (Invoker.callHFWithRetry post maxRetries))) /\
  0 <= Backoff.slept (fst (Invoker.callHFWithRetry post maxRetries))
    <= 1000 * Z.of_nat maxRetries * (Z.of_nat maxRetries - 1).
Proof.
  unfold Invoker.callHFWithRetry. destruct maxRetries as [|left].
  - cbn. unfold Backoff.slept. cbn. split; [left; auto|]. repeat split; lia.
  - destruct (attempts_bounded post (S left) left 1) as (Hp & Hs & H0 & Hb); [lia|].
    destruct (attempts_shape post (S left) left 1) as (delays & Hw & Hl & Hd); [lia|].
    split; [right; exists delays; split; [exact Hw|]; split; [lia | exact Hd]|].
    repeat split; try lia; try exact Hs.
Qed.

(** X2: when the attempts before the [k]-th fail (they throw, or their
    answer cannot be read, or it is the warm-up payload) and the [k]-th,
    with [1 <= k <= maxRetries], is answered with a body that can be
    read and is not the warm-up payload, [callHFWithRetry] returns that
    body after exactly [k] requests. *)
Theorem callHFWithRetry_first_success
    (post : nat -> Invoker.Outcome) (maxRetries k : nat) (d : Invoker.HFData) :
  (1 <= k <= maxRetries)%nat ->
  (forall a, (1 <= a < k)%nat -> Backoff.failed (post a) = true) ->
  post k = Invoker.Resolve d ->
  Invoker.unreadable d = false ->
  Invoker.is_loading d = false ->
  Invoker.posts (fst (Invoker.callHFWithRetry post maxRetries)) = k /\
  snd (Invoker.callHFWithRetry post maxRetries) = Invoker.Returned (Some d).
Proof.
  intros Hk Hfail Hpost Hread Hload. unfold Invoker.callHFWithRetry.
  destruct k as [|n]; [lia|].
  apply (attempts_first_success post maxRetries (S n) d n 1 maxRetries);
    try assumption; lia.
Qed.

Lemma callHFWithRetry_first_success_witness :
  (1 <= 2 <= 3)%nat /\
  Invoker.posts (fst (Invoker.callHFWithRetry answered_second 3)) = 2%nat /\
  snd (Invoker.callHFWithRetry answered_second 3) =
    Invoker.Returned
      (Some (Invoker.DItems [Invoker.mkItem (Some "Cells divide.") None])).
Proof.
  split; [lia|].
  apply (callHFWithRetry_first_success answered_second 3 2).
  - lia.
  - intros a Ha. assert (a = 1%nat) as -> by lia. reflexivity.
  - reflexivity.
  - reflexivity.
  - reflexivity.
Defined.

(** X3: [callHFWithRetry] throws only when its last attempt ended in
    the [catch] block (the request threw, or its answer could not be
    read), and then with the message "HuggingFace API failed after
    [maxRetries] attempts"; the error caught is never passed on. *)
Theorem callHFWithRetry_throws_only_after_last_attempt
    (post : nat -> Invoker.Outcome) (maxRetries : nat) (msg : string) :
  snd (Invoker.callHFWithRetry post maxRetries) = Invoker.Thrown msg ->
  msg = Invoker.exhausted_message maxRetries /\
  (1 <= maxRetries)%nat /\
  Backoff.caught (post maxRetries) = true.
Proof.
  intros H. unfold Invoker.callHFWithRetry in H.
  pose proof (attempts_provenance post maxRetries maxRetries 1 ltac:(lia)) as Hprov.
  rewrite H in Hprov. exact Hprov.
Qed.

Lemma callHFWithRetry_throws_only_after_last_attempt_witness :
  snd (Invoker.callHFWithRetry null_body 3) =
    Invoker.Thrown "HuggingFace API failed after 3 attempts" /\
  Backoff.caught (null_body 3%nat) = true.
Proof.
  split; [reflexivity|].
  apply (callHFWithRetry_throws_only_after_last_attempt null_body 3
           "HuggingFace API failed after 3 attempts").
  reflexivity.
Defined.

(** X4: a payload that [callHFWithRetry] returns is the answer of one of
    its attempts, and a warm-up payload is returned only from the last
    attempt. *)
Theorem callHFWithRetry_returns_an_answer
    (post : nat -> Invoker.Outcome) (maxRetries : nat) (d : Invoker.HFData) :
  snd (Invoker.callHFWithRetry post maxRetries) = Invoker.Returned (Some d) ->
  exists a,
    (1 <= a <= maxRetries)%nat /\
    post a = Invoker.Resolve d /\
    (Invoker.is_loading d = true -> a = maxRetries).
Proof.
  intros H. unfold Invoker.callHFWithRetry in H.
  pose proof (attempts_provenance post maxRetries maxRetries 1 ltac:(lia)) as Hprov.
  rewrite H in Hprov. exact Hprov.
Qed.

Lemma callHFWithRetry_returns_an_answer_witness :
  snd (Invoker.callHFWithRetry answered_second 3) =
    Invoker.Returned
      (Some (Invoker.DItems [Invoker.mkItem (Some "Cells divide.") None])) /\
  exists a,
    (1 <= a <= 3)%nat /\
    answered_second a =
      Invoker.Resolve (Invoker.DItems [Invoker.mkItem (Some "Cells divide.") None]).
Proof.
  split; [reflexivity|].
  destruct (callHFWithRetry_returns_an_answer answered_second 3
              (Invoker.DItems [Invoker.mkItem (Some "Cells divide.") None]))
    as (a & Ha & Hpost & _); [reflexivity|].
  exists a. split; [exact Ha | exact Hpost].
Defined.

(** X5: [callHFWithRetry] returns [undefined] exactly when [maxRetries]
    is 0, in which case it sends nothing. *)
Theorem callHFWithRetry_undefined_iff_no_attempt
    (post : nat -> Invoker.Outcome) (maxRetries : nat) :
  snd (Invoker.callHFWithRetry post maxRetries) = Invoker.Returned None <->
  maxRetries = 0%nat.
Proof.
  split.
  - intros H. unfold Invoker.callHFWithRetry in H.
    pose proof (attempts_provenance post maxRetries maxRetries 1 ltac:(lia)) as Hprov.
    rewrite H in Hprov. exact Hprov.
  - intros ->. reflexivity.
Qed.

(** ** The quiz generators: what every quiz looks like *)

Section QuizFacts.
Import Quiz QuizShape.

Lemma parse_from_length random d lines :
  forall i, List.length (parse_from random d i lines) = List.length lines.
Proof.
  induction lines as [|line lines IH]; intros i; cbn [parse_from List.length];
    [|rewrite IH]; reflexivity.
Qed.

Lemma parse_from_well_formed random d lines :
  forall i, Forall (well_formed d) (parse_from random d i lines).
Proof.
  induction lines as [|line lines IH]; intros i; cbn [parse_from]; constructor;
    [|apply IH].
  destruct (random i); (split; [reflexivity|]); cbn.
  - eexists. split; [reflexivity|]. split; [reflexivity|]. left. reflexivity.
  - reflexivity.
Qed.

Lemma mock_question_well_formed d i : well_formed d (mock_question d i).
Proof.
  unfold mock_question. destruct (i mod 3 =? 0)%nat; (split; [reflexivity|]); cbn.
  - reflexivity.
  - eexists. split; [reflexivity|]. split; [reflexivity|]. left. reflexivity.
Qed.

Lemma generateMockQuiz_well_formed text d :
  Forall (well_formed d) (generateMockQuiz text d).
Proof.
  unfold generateMockQuiz. apply List.Forall_forall. intros q Hq.
  apply in_map_iff in Hq as (i & <- & _). apply mock_question_well_formed.
Qed.

Lemma parseQuizFromText_size random text d :
  List.length (parseQuizFromText random text d) =
    Nat.min 10 (List.length (nonblank_lines text)).
Proof.
  unfold parseQuizFromText. rewrite parse_from_length. apply List.length_firstn.
Qed.

End QuizFacts.

(** X6: [parseQuizFromText] makes one question for each of the first 10
    non-blank lines of the generated text, whatever [Math.random]
    yields; it makes none exactly when the text has no non-blank line. *)
Theorem parseQuizFromText_length
    (random : nat -> bool) (text : string) (d : Quiz.Difficulty) :
  List.length (Quiz.parseQuizFromText random text d) =
    Nat.min 10 (List.length (Quiz.nonblank_lines text)) /\
  (Quiz.parseQuizFromText random text d = [] <-> Quiz.nonblank_lines text = []).
Proof.
  split; [apply parseQuizFromText_size|].
  rewrite <- !List.length_zero_iff_nil, parseQuizFromText_size.
  destruct (Quiz.nonblank_lines text) as [|l ls]; cbn [List.length]; lia.
Qed.

(** X7: whatever the network and [Math.random] do, [generateQuiz]
    returns between 1 and 10 questions, each of the requested difficulty
    and each either a short answer without options or a multiple choice
    with four options that include its answer. *)
Theorem generateQuiz_well_formed
    (post : string -> string -> nat -> Invoker.Outcome) (random : nat -> bool)
    (text : string) (d : Quiz.Difficulty) :
  exists questions,
    snd (Pipeline.generateQuiz post random text d) = Invoker.Returned questions /\
    (1 <= List.length questions <= 10)%nat /\
    Forall (QuizShape.well_formed d) questions.
Proof.
  assert (Hmock :
    (1 <= List.length (Quiz.generateMockQuiz text d) <= 10)%nat /\
    Forall (QuizShape.well_formed d) (Quiz.generateMockQuiz text d)).
  { split; [cbn; lia | apply generateMockQuiz_well_formed]. }
  remember (Quiz.generateMockQuiz text d) as mock eqn:Emock.
  unfold Pipeline.generateQuiz, Pipeline.try_catch, Pipeline.bind, Pipeline.ret.
  rewrite <- Emock.
  destruct (Invoker.callHFWithRetry _ 3) as [evs [result|msg]];
    [|eexists; split; [reflexivity | exact Hmock]].
  destruct (Pipeline.first_field Invoker.generated_text result) as [generated|];
    [|eexists; split; [reflexivity | exact Hmock]].
  pose proof (parseQuizFromText_size random generated d) as Hsize.
  pose proof (parse_from_well_formed random d
                (firstn 10 (Quiz.nonblank_lines generated)) 0) as Hwf.
  fold (Quiz.parseQuizFromText random generated d) in Hwf.
  remember (Quiz.parseQuizFromText random generated d) as parsed eqn:Eparsed.
  cbn. eexists. split; [reflexivity|].
  destruct parsed as [|q parsed]; [exact Hmock|].
  cbn [List.length] in *. cbv iota.
  split; [cbn [List.length]; lia | exact Hwf].
Qed.

(** X8: when the wrapper returns a first item whose [generated_text]
    has a non-blank line, [generateQuiz] returns the questions parsed
    from it, not the fallback. *)
Theorem generateQuiz_accepts_primary
    (post : string -> string -> nat -> Invoker.Outcome) (random : nat -> bool)
    (text generated : string) (d : Quiz.Difficulty) (result : option Invoker.HFData) :
  snd (Invoker.callHFWithRetry
         (post "microsoft/DialoGPT-medium" (Quiz.createQuizPrompt text d)) 3) =
    Invoker.Returned result ->
  Pipeline.first_field Invoker.generated_text result = Some generated ->
  Quiz.nonblank_lines generated <> [] ->
  snd (Pipeline.generateQuiz post random text d) =
    Invoker.Returned (Quiz.parseQuizFromText random generated d).
Proof.
  intros Hcall Hfield Hlines.
  unfold Pipeline.generateQuiz, Pipeline.try_catch, Pipeline.bind, Pipeline.ret.
  destruct (Invoker.callHFWithRetry _ 3) as [evs r]. cbn [snd] in Hcall. subst r.
  rewrite Hfield.
  pose proof (parseQuizFromText_size random generated d) as Hsize.
  remember (Quiz.parseQuizFromText random generated d) as parsed eqn:Eparsed.
  remember (Quiz.generateMockQuiz text d) as mock eqn:Emock.
  destruct parsed as [|q parsed]; [|reflexivity].
  exfalso. apply Hlines.
  destruct (Quiz.nonblank_lines generated); [reflexivity | cbn in Hsize; lia].
Qed.

Lemma generateQuiz_accepts_primary_witness :
  Quiz.nonblank_lines two_lines <> [] /\
  snd (Pipeline.generateQuiz answering_network heads_then_tails two_sentences Quiz.easy) =
    Invoker.Returned (Quiz.parseQuizFromText heads_then_tails two_lines Quiz.easy).
Proof.
  split; [discriminate|].
  apply (generateQuiz_accepts_primary answering_network heads_then_tails
           two_sentences two_lines Quiz.easy
           (Some (Invoker.DItems [Invoker.mkItem None (Some two_lines)]))).
  - reflexivity.
  - reflexivity.
  - discriminate.
Defined.

(** ** The generation entry points: requests sent and content returned *)

Section ServeFacts.
Import Invoker Pipeline.

Variable post : string -> string -> nat -> Outcome.

(** An entry point causes the events of its one wrapper call and no
    others. *)
Lemma serve_events (req : Request) :
  exists model inputs,
    fst (serve post req) = fst (callHFWithRetry (post model inputs) 3).
Proof.
  destruct req as [text|random text d|question subject]; cbn [serve].
  - exists "facebook/bart-large-cnn", (JS.substring0 4096 text).
    unfold summarizeText, try_catch, bind, ret.
    destruct (callHFWithRetry _ 3) as [evs [result|msg]]; cbn [fst];
      [destruct (first_field summary_text result)|]; cbn [fst];
      rewrite ?app_nil_r; reflexivity.
  - exists "microsoft/DialoGPT-medium", (Quiz.createQuizPrompt text d).
    unfold generateQuiz, try_catch, bind, ret.
    destruct (callHFWithRetry _ 3) as [evs [result|msg]]; cbn [fst];
      [destruct (first_field generated_text result)|]; cbn [fst];
      rewrite ?app_nil_r; reflexivity.
  - exists "microsoft/DialoGPT-medium", (Homework.createHomeworkPrompt question subject).
    unfold getHomeworkHelp, try_catch, bind, ret.
    destruct (callHFWithRetry _ 3) as [evs [result|msg]]; cbn [fst];
      [destruct (first_field generated_text result)|]; cbn [fst];
      rewrite ?app_nil_r; reflexivity.
Qed.

End ServeFacts.

(** X9: whatever the network does, serving a request of any kind sends
    at most 3 requests to the generation service and sleeps at most 6
    seconds between them in all. *)
Theorem serve_bounded
    (post : string -> string -> nat -> Invoker.Outcome) (req : Pipeline.Request) :
  (1 <= Invoker.posts (fst (Pipeline.serve post req)) <= 3)%nat /\
  0 <= Backoff.slept (fst (Pipeline.serve post req)) <= 6000.
Proof.
  destruct (serve_events post req) as (model & inputs & ->).
  unfold Invoker.callHFWithRetry.
  destruct (attempts_bounded (post model inputs) 3 2 1) as (Hp & _ & H0 & Hb); lia.
Qed.

(** ** Strings: trimming and splitting *)

Section StringFacts.
Import JS Runs.

(** Induction that follows [trimStart], which looks up to three bytes
    ahead. *)
Lemma string_ind3 (P : string -> Prop) :
  P EmptyString ->
  (forall a s1,
     P s1 ->
     (forall b s2, s1 = String b s2 -> P s2) ->
     (forall b c s3, s1 = String b (String c s3) -> P s3) ->
     P (String a s1)) ->
  forall s, P s.
Proof.
  intros Hnil Hcons.
  assert (H : forall s,
    P s /\ (forall b s2, s = String b s2 -> P s2) /\
    (forall b c s3, s = String b (String c s3) -> P s3)).
  { induction s as [|a s1 (IH1 & IH2 & IH3)].
    - split; [exact Hnil|]. split; intros; discriminate.
    - split; [apply Hcons; assumption|]. split.
      + intros b s2 E. injection E as _ <-. exact IH1.
      + intros b c s3 E. injection E as _ E. eapply IH2. exact E. }
  intros s. apply H.
Qed.

Lemma trimStart_step a s1 :
  trimStart (String a s1) =
    if is_space a then trimStart s1
    else
      match s1 with
      | EmptyString => String a s1
      | String b s2 =>
          if is_space2 a b then trimStart s2
          else
            match s2 with
            | EmptyString => String a s1
            | String c s3 => if is_space3 a b c then trimStart s3 else String a s1
            end
      end.
Proof. destruct s1 as [|b [|c s3]]; reflexivity. Qed.

Lemma trimEnd_step c s :
  trimEnd (String c s) =
    if is_space_string (String c (trimEnd s)) then EmptyString
    else String c (trimEnd s).
Proof. reflexivity. Qed.

Lemma units_bounds c : 0 <= units c <= 2.
Proof.
  unfold units.
  destruct (nat_of_ascii c <? 128)%nat; [lia|].
  destruct (nat_of_ascii c <? 192)%nat; [lia|].
  destruct (nat_of_ascii c <? 240)%nat; lia.
Qed.

Lemma len_nonneg s : 0 <= len s.
Proof.
  induction s as [|c s IH]; cbn [len]; [lia|].
  pose proof (units_bounds c). lia.
Qed.

(** The code units of a list of bytes. *)
Lemma len_string_of_list_app (l1 l2 : list ascii) :
  len (string_of_list_ascii (l1 ++ l2)) =
    len (string_of_list_ascii l1) + len (string_of_list_ascii l2).
Proof. induction l1 as [|c l1 IH]; cbn [app string_of_list_ascii len]; lia. Qed.

Lemma len_string_of_list_rev (l : list ascii) :
  len (string_of_list_ascii (rev l)) = len (string_of_list_ascii l).
Proof.
  induction l as [|c l IH]; [reflexivity|].
  cbn [rev]. rewrite len_string_of_list_app, IH. cbn [string_of_list_ascii len]. lia.
Qed.

Lemma trimStart_len s : len (trimStart s) <= len s.
Proof.
  induction s as [|a s1 IH1 IH2 IH3] using string_ind3; [reflexivity|].
  rewrite trimStart_step. pose proof (units_bounds a) as Ha.
  destruct (is_space a); [cbn [len]; lia|].
  destruct s1 as [|b s2]; [lia|].
  pose proof (units_bounds b) as Hb. specialize (IH2 b s2 eq_refl).
  destruct (is_space2 a b); [cbn [len]; lia|].
  destruct s2 as [|c s3]; [lia|].
  pose proof (units_bounds c) as Hc. specialize (IH3 b c s3 eq_refl).
  destruct (is_space3 a b c); [cbn [len]; lia | lia].
Qed.

Lemma trimEnd_len s : len (trimEnd s) <= len s.
Proof.
  induction s as [|c s IH]; [reflexivity|].
  rewrite trimEnd_step. pose proof (len_nonneg s). pose proof (units_bounds c).
  destruct (is_space_string _); cbn [len]; lia.
Qed.

Lemma trim_len s : len (trim s) <= len s.
Proof.
  unfold trim. pose proof (trimEnd_len (trimStart s)).
  pose proof (trimStart_len s). lia.
Qed.

Lemma trimStart_length s : (String.length (trimStart s) <= String.length s)%nat.
Proof.
  induction s as [|a s1 IH1 IH2 IH3] using string_ind3; [reflexivity|].
  rewrite trimStart_step.
  destruct (is_space a); [cbn [String.length]; lia|].
  destruct s1 as [|b s2]; [lia|]. specialize (IH2 b s2 eq_refl).
  destruct (is_space2 a b); [cbn [String.length]; lia|].
  destruct s2 as [|c s3]; [lia|]. specialize (IH3 b c s3 eq_refl).
  destruct (is_space3 a b c); [cbn [String.length]; lia | lia].
Qed.

(** What [trimEnd] returns does not end with white space, so trimming
    it again changes nothing. *)
Lemma trimEnd_idempotent s : trimEnd (trimEnd s) = trimEnd s.
Proof.
  induction s as [|c s IH]; [reflexivity|].
  rewrite trimEnd_step.
  destruct (is_space_string (String c (trimEnd s))) eqn:Hc; [reflexivity|].
  rewrite trimEnd_step, IH, Hc. reflexivity.
Qed.

(** A string that [trimStart] leaves as it is does not start with white
    space. *)
Lemma trimStart_fixed a s1 :
  trimStart (String a s1) = String a s1 ->
  is_space a = false /\
  (forall b s2, s1 = String b s2 -> is_space2 a b = false) /\
  (forall b c s3, s1 = String b (String c s3) -> is_space3 a b c = false).
Proof.
  intros Hfix.
  assert (Hshort : forall t, (String.length t <= String.length s1)%nat ->
                             trimStart t <> String a s1).
  { intros t Ht E. pose proof (trimStart_length t) as Hl. rewrite E in Hl.
    cbn [String.length] in Hl. lia. }
  rewrite trimStart_step in Hfix.
  destruct (is_space a); [exfalso; apply (Hshort s1); [lia | exact Hfix]|].
  split; [reflexivity|]. split.
  - intros b s2 ->. destruct (is_space2 a b); [|reflexivity].
    exfalso. apply (Hshort s2); [cbn [String.length]; lia | exact Hfix].
  - intros b c s3 ->. destruct (is_space2 a b);
      [exfalso; apply (Hshort (String c s3)); [cbn [String.length]; lia | exact Hfix]|].
    destruct (is_space3 a b c); [|reflexivity].
    exfalso. apply (Hshort s3); [cbn [String.length]; lia | exact Hfix].
Qed.

Lemma trimStart_unchanged a s1 :
  is_space a = false ->
  (forall b s2, s1 = String b s2 -> is_space2 a b = false) ->
  (forall b c s3, s1 = String b (String c s3) -> is_space3 a b c = false) ->
  trimStart (String a s1) = String a s1.
Proof.
  intros H1 H2 H3. rewrite trimStart_step, H1.
  destruct s1 as [|b s2]; [reflexivity|]. rewrite (H2 b s2 eq_refl).
  destruct s2 as [|c s3]; [reflexivity|]. rewrite (H3 b c s3 eq_refl). reflexivity.
Qed.

Lemma trimStart_idempotent s : trimStart (trimStart s) = trimStart s.
Proof.
  induction s as [|a s1 IH1 IH2 IH3] using string_ind3; [reflexivity|].
  rewrite trimStart_step.
  destruct (is_space a) eqn:Ha; [exact IH1|].
  destruct s1 as [|b s2]; [rewrite trimStart_step, Ha; reflexivity|].
  destruct (is_space2 a b) eqn:Hb; [exact (IH2 b s2 eq_refl)|].
  destruct s2 as [|c s3];
    [rewrite trimStart_step, Ha, Hb; reflexivity|].
  destruct (is_space3 a b c) eqn:Hc; [exact (IH3 b c s3 eq_refl)|].
  rewrite trimStart_step, Ha, Hb, Hc. reflexivity.
Qed.

(** A string is empty after [trimEnd] or keeps its first byte. *)
Lemma trimEnd_head c s :
  trimEnd (String c s) = EmptyString \/
  trimEnd (String c s) = String c (trimEnd s).
Proof. rewrite trimEnd_step. destruct (is_space_string _); auto. Qed.

(** Dropping white space at the end does not uncover white space at the
    start. *)
Lemma trimStart_trimEnd u : trimStart u = u -> trimStart (trimEnd u) = trimEnd u.
Proof.
  destruct u as [|a s1]; [reflexivity|]. intros Hfix.
  destruct (trimStart_fixed a s1 Hfix) as (H1 & H2 & H3).
  destruct (trimEnd_head a s1) as [-> | ->]; [reflexivity|].
  apply trimStart_unchanged; [exact H1| |].
  - intros b v2 E. destruct s1 as [|b' s2]; [discriminate E|].
    destruct (trimEnd_head b' s2) as [E'|E']; rewrite E' in E; [discriminate E|].
    injection E as <- _. apply (H2 b' s2 eq_refl).
  - intros b c v3 E. destruct s1 as [|b' s2]; [discriminate E|].
    destruct (trimEnd_head b' s2) as [E'|E']; rewrite E' in E; [discriminate E|].
    injection E as <- E. destruct s2 as [|c' s3]; [discriminate E|].
    destruct (trimEnd_head c' s3) as [E''|E'']; rewrite E'' in E; [discriminate E|].
    injection E as <- _. apply (H3 b' c' s3 eq_refl).
Qed.

Lemma trim_idempotent s : trim (trim s) = trim s.
Proof.
  unfold trim. rewrite (trimStart_trimEnd _ (trimStart_idempotent s)).
  apply trimEnd_idempotent.
Qed.

Lemma skip_length d s : (String.length (skip d s) <= String.length s)%nat.
Proof.
  induction s as [|c s IH]; cbn [skip]; [lia|].
  destruct (d c); cbn [String.length]; lia.
Qed.

(** After a delimiter the rest of the run is skipped and a new fragment
    starts. *)
Lemma split_runs_delimiter d cur c s :
  d c = true ->
  split_runs d cur (String c s) =
    string_of_list_ascii (rev cur) :: split_runs d [] (skip d s).
Proof.
  intros Hc. cbn [split_runs]. rewrite Hc. f_equal.
  induction s as [|c' s IH]; [reflexivity|].
  cbn [skip]. destruct (d c') eqn:Hc'; [exact IH|].
  cbn [split_runs]. rewrite Hc'. reflexivity.
Qed.

Lemma split_runs_other d cur c s :
  d c = false -> split_runs d cur (String c s) = split_runs d (c :: cur) s.
Proof. intros Hc. cbn [split_runs]. rewrite Hc. reflexivity. Qed.

Lemma skip_len d s : len (skip d s) <= len s.
Proof.
  induction s as [|c s IH]; cbn [skip]; [lia|].
  pose proof (units_bounds c). destruct (d c); cbn [len]; lia.
Qed.

(** No fragment has more code units than what was read plus what is
    left. *)
Lemma split_runs_bound d n :
  forall s cur,
    (String.length s <= n)%nat ->
    Forall (fun f => len f <= len (string_of_list_ascii cur) + len s)
      (split_runs d cur s).
Proof.
  induction n as [|n IH]; intros s cur Hn; destruct s as [|c s].
  - constructor; [|constructor]. rewrite len_string_of_list_rev. cbn [len]. lia.
  - cbn in Hn. lia.
  - constructor; [|constructor]. rewrite len_string_of_list_rev. cbn [len]. lia.
  - cbn [String.length] in Hn. pose proof (units_bounds c) as Hc'.
    pose proof (len_nonneg s) as Hs.
    pose proof (len_nonneg (string_of_list_ascii cur)) as Hcur.
    destruct (d c) eqn:Hc.
    + rewrite split_runs_delimiter by exact Hc. constructor.
      * rewrite len_string_of_list_rev. cbn [len]. lia.
      * pose proof (skip_length d s) as Hskip. pose proof (skip_len d s) as Hskip'.
        eapply List.Forall_impl; [|apply (IH (skip d s) []); lia].
        cbn [string_of_list_ascii len]. intros f Hf. lia.
    + rewrite split_runs_other by exact Hc.
      eapply List.Forall_impl; [|apply (IH s (c :: cur)); lia].
      cbn [string_of_list_ascii len]. intros f Hf. lia.
Qed.

End StringFacts.

Section FragmentFacts.
Import JS Runs.

Lemma free_of_string_of_list d (l : list ascii) :
  free_of d (string_of_list_ascii l) = forallb (fun c => negb (d c)) l.
Proof. induction l as [|c l IH]; cbn; [|rewrite IH]; reflexivity. Qed.

Lemma forallb_rev {A} (f : A -> bool) (l : list A) :
  forallb f (rev l) = forallb f l.
Proof.
  induction l as [|x l IH]; [reflexivity|].
  cbn [rev forallb]. rewrite forallb_app, IH. cbn. rewrite andb_true_r. apply andb_comm.
Qed.

Lemma free_of_trimStart d s : free_of d s = true -> free_of d (trimStart s) = true.
Proof.
  induction s as [|a s1 IH1 IH2 IH3] using string_ind3; [auto|].
  intros H. rewrite trimStart_step.
  pose proof H as H'. cbn [free_of] in H'. apply andb_prop in H' as [_ H1].
  destruct (is_space a); [auto|].
  destruct s1 as [|b s2]; [exact H|].
  pose proof H1 as H1'. cbn [free_of] in H1'. apply andb_prop in H1' as [_ H2].
  destruct (is_space2 a b); [exact (IH2 b s2 eq_refl H2)|].
  destruct s2 as [|c s3]; [exact H|].
  pose proof H2 as H2'. cbn [free_of] in H2'. apply andb_prop in H2' as [_ H3].
  destruct (is_space3 a b c); [exact (IH3 b c s3 eq_refl H3) | exact H].
Qed.

Lemma free_of_trimEnd d s : free_of d s = true -> free_of d (trimEnd s) = true.
Proof.
  induction s as [|c s IH]; [auto|].
  cbn [free_of]. intros H. apply andb_prop in H as [Hc Hs]. specialize (IH Hs).
  rewrite trimEnd_step. destruct (is_space_string _); [reflexivity|].
  cbn [free_of]. rewrite Hc, IH. reflexivity.
Qed.

Lemma free_of_trim d s : free_of d s = true -> free_of d (trim s) = true.
Proof. intros H. unfold trim. apply free_of_trimEnd, free_of_trimStart, H. Qed.

(** The fragments hold no delimiter. *)
Lemma split_runs_free d n :
  forall s cur,
    (String.length s <= n)%nat ->
    forallb (fun c => negb (d c)) cur = true ->
    Forall (fun f => free_of d f = true) (split_runs d cur s).
Proof.
  induction n as [|n IH]; intros s cur Hn Hcur; destruct s as [|c s].
  - constructor; [|constructor]. rewrite free_of_string_of_list, forallb_rev. exact Hcur.
  - cbn in Hn. lia.
  - constructor; [|constructor]. rewrite free_of_string_of_list, forallb_rev. exact Hcur.
  - cbn [String.length] in Hn. destruct (d c) eqn:Hc.
    + rewrite split_runs_delimiter by exact Hc. constructor.
      * rewrite free_of_string_of_list, forallb_rev. exact Hcur.
      * pose proof (skip_length d s). apply IH; [lia | reflexivity].
    + rewrite split_runs_other by exact Hc. apply IH; [lia|].
      cbn [forallb]. rewrite Hc, Hcur. reflexivity.
Qed.

End FragmentFacts.

(** ** The summary generators: what a summary holds *)

Section SummaryFacts.
Import Summary.

Lemma keyword_bonus_bounds (s : string) (l : list string) :
  forall acc,
    acc <= fold_left
             (fun acc keyword =>
                if JS.includes (JS.toLowerCase s) keyword then acc + 1 else acc)
             l acc
        <= acc + Z.of_nat (List.length l).
Proof.
  induction l as [|k l IH]; intros acc; cbn [fold_left List.length]; [lia|].
  destruct (JS.includes (JS.toLowerCase s) k).
  - specialize (IH (acc + 1)). lia.
  - specialize (IH acc). lia.
Qed.

Lemma score_of_bounds n index s : 0 <= score_of n index s <= 10.
Proof.
  unfold score_of. pose proof (keyword_bonus_bounds s keyWords 0) as Hk.
  change (Z.of_nat (List.length keyWords)) with 7 in Hk.
  destruct ((index =? 0)%nat || (Z.of_nat index =? Z.of_nat n - 1));
    destruct ((30 <? JS.len s) && (JS.len s <? 300)); lia.
Qed.

Lemma score_from_bounds n l :
  forall start, Forall (fun x => 0 <= score x <= 10) (score_from n start l).
Proof.
  induction l as [|s l IH]; intros start; cbn [score_from]; constructor;
    [apply score_of_bounds | apply IH].
Qed.

Lemma In_firstn {A} (n : nat) (l : list A) (x : A) : In x (firstn n l) -> In x l.
Proof.
  intros H. rewrite <- (firstn_skipn n l). apply in_or_app. left. exact H.
Qed.

(** A sentence of the summary is the trimmed form of a kept fragment. *)
Lemma topSentences_from_sentences text s :
  In s (topSentences text) ->
  exists f, In f (split_sentences text) /\
            (15 <? JS.len (JS.trim f)) = true /\ s = JS.trim f.
Proof.
  unfold topSentences. intros Hin.
  apply in_map_iff in Hin as (x & <- & Hx).
  apply In_firstn in Hx.
  assert (Hs : In (sentence x) (map JS.trim (sentences text))).
  { unfold ranked in Hx.
    apply (Permutation_in _ (sort_perm _)) in Hx.
    unfold scoredSentences in Hx.
    rewrite <- (score_from_sentences (List.length (sentences text)) (sentences text) 0).
    apply in_map. exact Hx. }
  apply in_map_iff in Hs as (f & Hf & Hin).
  unfold sentences in Hin. apply filter_In in Hin as [Hin Hlen].
  exists f. auto.
Qed.

End SummaryFacts.

(** X10: every sentence listed by the extractive summary is longer than
    15 characters, has no white space at either end and holds none of
    the delimiters [.], [!] and [?]. *)
Theorem topSentences_are_clean (text : string) :
  Forall
    (fun s => 15 < JS.len s /\ JS.trim s = s /\ Runs.free_of Summary.is_delim s = true)
    (Summary.topSentences text).
Proof.
  apply List.Forall_forall. intros s Hin.
  apply topSentences_from_sentences in Hin as (f & Hf & Hlen & ->).
  split; [apply Z.ltb_lt; exact Hlen|].
  split; [apply trim_idempotent|].
  apply free_of_trim.
  pose proof (split_runs_free Summary.is_delim (String.length text) text []
                (Nat.le_refl _) eq_refl) as Hfree.
  rewrite List.Forall_forall in Hfree. apply Hfree. exact Hf.
Qed.

(** X11: a text of at most 15 UTF-16 code units, the text's [length]
    in JavaScript, has no qualifying sentence: its extractive summary is
    the heading alone. *)
Theorem createExtractiveSummary_short_text (text : string) :
  JS.len text <= 15 ->
  Summary.createExtractiveSummary text = Summary.heading.
Proof.
  intros Hshort.
  assert (Hnone : Summary.sentences text = []).
  { unfold Summary.sentences, Summary.split_sentences.
    pose proof (split_runs_bound Summary.is_delim (String.length text) text []
                  (Nat.le_refl _)) as Hbound.
    induction Hbound as [|f fs Hf _ IH]; [reflexivity|].
    cbn [List.filter]. rewrite IH.
    replace (15 <? JS.len (JS.trim f)) with false; [reflexivity|].
    symmetry. apply Z.ltb_ge.
    pose proof (trim_len f). cbn [string_of_list_ascii JS.len] in Hf. lia. }
  unfold Summary.createExtractiveSummary, Summary.topSentences, Summary.ranked,
    Summary.scoredSentences.
  rewrite Hnone. reflexivity.
Qed.

Lemma createExtractiveSummary_short_text_witness :
  JS.len "Déjà vu. Cafés!" <= 15 /\
  Summary.createExtractiveSummary "Déjà vu. Cafés!" = Summary.heading.
Proof.
  split; [vm_compute; discriminate|].
  apply (createExtractiveSummary_short_text "Déjà vu. Cafés!").
  vm_compute. discriminate.
Defined.

(** X12: every sentence is scored between 0 and 10. *)
Theorem ranked_scores_bounded (text : string) :
  Forall (fun x => 0 <= Summary.score x <= 10) (Summary.ranked text).
Proof.
  unfold Summary.ranked.
  eapply Permutation_Forall; [symmetry; apply sort_perm|].
  apply score_from_bounds.
Qed.

(** X13: whatever the network does, what [summarizeText] returns starts
    with the heading "## Summary" line and a blank line. *)
Theorem summarizeText_starts_with_heading
    (post : string -> string -> nat -> Invoker.Outcome) (text : string) :
  exists body,
    snd (Pipeline.summarizeText post text) =
      Invoker.Returned (Summary.heading ++ body).
Proof.
  unfold Pipeline.summarizeText, Pipeline.try_catch, Pipeline.bind, Pipeline.ret.
  destruct (Invoker.callHFWithRetry _ 3) as [evs [result|msg]];
    [|eexists; reflexivity].
  destruct (Pipeline.first_field Invoker.summary_text result) as [summary|];
    [|eexists; reflexivity].
  cbn [snd]. unfold Summary.formatSummary.
  destruct (3 <? _)%nat; eexists; reflexivity.
Qed.

(** X14: whatever the network and [Math.random] do, none of
    [summarizeText], [generateQuiz] and [getHomeworkHelp] throws: each
    returns content. *)
Theorem entry_points_never_throw
    (post : string -> string -> nat -> Invoker.Outcome) :
  (forall text,
     exists s, snd (Pipeline.summarizeText post text) = Invoker.Returned s) /\
  (forall random text d,
     exists l, snd (Pipeline.generateQuiz post random text d) = Invoker.Returned l) /\
  (forall question subject,
     exists s, snd (Pipeline.getHomeworkHelp post question subject) = Invoker.Returned s).
Proof.
  split; [|split].
  - intros text.
    destruct (serve_returns post (Pipeline.Summarize text)) as [content H].
    cbn [Pipeline.serve] in H. unfold Pipeline.bind, Pipeline.ret in H.
    destruct (Pipeline.summarizeText post text) as [evs [s|msg]];
      [eexists; reflexivity | discriminate H].
  - intros random text d.
    destruct (serve_returns post (Pipeline.MakeQuiz random text d)) as [content H].
    cbn [Pipeline.serve] in H. unfold Pipeline.bind, Pipeline.ret in H.
    destruct (Pipeline.generateQuiz post random text d) as [evs [l|msg]];
      [eexists; reflexivity | discriminate H].
  - intros question subject.
    destruct (serve_returns post (Pipeline.Help question subject)) as [content H].
    cbn [Pipeline.serve] in H. unfold Pipeline.bind, Pipeline.ret in H.
    destruct (Pipeline.getHomeworkHelp post question subject) as [evs [s|msg]];
      [eexists; reflexivity | discriminate H].
Qed.

(** ** The homework generators *)

Section IncludesFacts.
Import JS.

Lemma includes_unfold s k :
  includes s k =
    String.prefix k s ||
    match s with
    | EmptyString => false
    | String _ s' => includes s' k
    end.
Proof. destruct s; reflexivity. Qed.

Lemma append_cons c a b : String c a ++ b = String c (a ++ b).
Proof. reflexivity. Qed.

Lemma append_empty b : EmptyString ++ b = b.
Proof. reflexivity. Qed.

Lemma prefix_append k b : String.prefix k (k ++ b) = true.
Proof.
  induction k as [|c k IH]; [rewrite append_empty; destruct b; reflexivity|].
  rewrite append_cons. cbn [String.prefix].
  destruct (ascii_dec c c) as [_|Hne]; [exact IH | contradiction].
Qed.

Lemma prefix_append_l k a b :
  String.prefix k a = true -> String.prefix k (a ++ b) = true.
Proof.
  revert a. induction k as [|c k IH]; intros a H; [destruct (a ++ b); reflexivity|].
  destruct a as [|c' a]; [discriminate H|].
  rewrite append_cons. cbn [String.prefix] in *.
  destruct (ascii_dec c c'); [apply IH; exact H | discriminate H].
Qed.

Lemma includes_here k b : includes (k ++ b) k = true.
Proof. rewrite includes_unfold, prefix_append. reflexivity. Qed.

Lemma includes_append_r a b k : includes b k = true -> includes (a ++ b) k = true.
Proof.
  intros H. induction a as [|c a IH]; [exact H|].
  rewrite append_cons, includes_unfold, IH. apply orb_true_r.
Qed.

Lemma includes_append_l a b k : includes a k = true -> includes (a ++ b) k = true.
Proof.
  induction a as [|c a IH]; intros H.
  - rewrite includes_unfold in H. rewrite orb_false_r in H.
    rewrite includes_unfold, (prefix_append_l _ _ _ H). reflexivity.
  - rewrite includes_unfold in H. rewrite append_cons, includes_unfold.
    apply orb_true_iff in H as [H|H].
    + rewrite <- append_cons, (prefix_append_l k (String c a) b H). reflexivity.
    + rewrite (IH H). apply orb_true_r.
Qed.

End IncludesFacts.

Section HomeworkFacts.
Import Homework.

(** Reading a table of the four subjects, all of whose templates are
    truthy. *)
Lemma pick_four (subject a b c d : string) :
  JS.truthy a = true -> JS.truthy b = true ->
  JS.truthy c = true -> JS.truthy d = true ->
  pick subject [("mathematics", a); ("science", b); ("essay", c); ("general", d)] =
    if String.eqb subject "mathematics" then Str a
    else if String.eqb subject "science" then Str b
    else if String.eqb subject "essay" then Str c
    else if String.eqb subject "general" then Str d
    else if JS.inherited subject then NotString subject
    else Str d.
Proof.
  intros Ha Hb Hc Hd. unfold pick, JS.get. cbn [JS.lookup].
  destruct (String.eqb subject "mathematics"); [rewrite Ha; reflexivity|].
  destruct (String.eqb subject "science"); [rewrite Hb; reflexivity|].
  destruct (String.eqb subject "essay"); [rewrite Hc; reflexivity|].
  destruct (String.eqb subject "general"); [rewrite Hd; reflexivity|].
  destruct (JS.inherited subject); reflexivity.
Qed.

Lemma truthy_lines c line rest :
  JS.truthy (JS.lines (String c line :: rest)) = true.
Proof.
  unfold JS.lines. destruct rest as [|l rest]; [reflexivity|].
  cbn [String.concat]. rewrite append_cons. reflexivity.
Qed.

(** The tables of the two generators, read at [subject]. *)
Lemma generateMockHomeworkHelp_cases question subject :
  generateMockHomeworkHelp question subject =
    if String.eqb subject "mathematics"
    then Str (default EmptyString (JS.lookup "mathematics" (responses question)))
    else if String.eqb subject "science"
    then Str (default EmptyString (JS.lookup "science" (responses question)))
    else if String.eqb subject "essay"
    then Str (default EmptyString (JS.lookup "essay" (responses question)))
    else if String.eqb subject "general"
    then Str (default EmptyString (JS.lookup "general" (responses question)))
    else if JS.inherited subject then NotString subject
    else Str (default EmptyString (JS.lookup "general" (responses question))).
Proof.
  unfold generateMockHomeworkHelp, responses.
  rewrite pick_four by apply truthy_lines. reflexivity.
Qed.

Lemma formatHomeworkResponse_cases response subject :
  formatHomeworkResponse response subject =
    if String.eqb subject "mathematics"
    then Str (default EmptyString (JS.lookup "mathematics" (templates response)))
    else if String.eqb subject "science"
    then Str (default EmptyString (JS.lookup "science" (templates response)))
    else if String.eqb subject "essay"
    then Str (default EmptyString (JS.lookup "essay" (templates response)))
    else if String.eqb subject "general"
    then Str (default EmptyString (JS.lookup "general" (templates response)))
    else if JS.inherited subject then NotString subject
    else Str (default EmptyString (JS.lookup "general" (templates response))).
Proof.
  unfold formatHomeworkResponse, templates.
  rewrite pick_four by apply truthy_lines. reflexivity.
Qed.

End HomeworkFacts.

(** Looks for the place of [k] inside nested appends. *)
Ltac find_inside :=
  first
    [ apply includes_here
    | lazymatch goal with
      | |- JS.includes (_ ++ _) _ = true =>
          first [ apply includes_append_l; find_inside
                | apply includes_append_r; find_inside ]
      end ].

(** Finds the input in the template of each subject. *)
Ltac each_template :=
  repeat match goal with
  | |- context [String.eqb ?subject ?k] =>
      destruct (String.eqb_spec subject k) as [->|_];
        [split; [reflexivity|];
         unfold Homework.responses, Homework.templates;
         cbn [JS.lookup String.eqb Ascii.eqb Bool.eqb default from_option id];
         unfold JS.lines; cbn [String.concat]; find_inside|]
  end.

(** X15: the homework fallback quotes the question verbatim, and a
    formatted primary answer holds the generated response verbatim, for
    every subject but those that name a property that objects inherit
    ([toString], [constructor], ...): for these both functions return
    that property, which is no text. *)
Theorem homework_embeds_input (input subject : string) :
  match Homework.generateMockHomeworkHelp input subject with
  | Homework.Str text => JS.inherited subject = false /\ JS.includes text input = true
  | Homework.NotString property => JS.inherited subject = true /\ property = subject
  end /\
  match Homework.formatHomeworkResponse input subject with
  | Homework.Str text => JS.inherited subject = false /\ JS.includes text input = true
  | Homework.NotString property => JS.inherited subject = true /\ property = subject
  end.
Proof.
  rewrite generateMockHomeworkHelp_cases, formatHomeworkResponse_cases.
  split; each_template;
    (destruct (JS.inherited subject) eqn:Hin; [split; reflexivity|];
     split; [reflexivity|];
     unfold Homework.responses, Homework.templates;
     cbn [JS.lookup String.eqb Ascii.eqb Bool.eqb default from_option id];
     unfold JS.lines; cbn [String.concat]; find_inside).
Qed.

(** X16: a subject other than the four known ones that names no
    inherited property gets the [general] template, from the fallback
    and from the formatter of primary answers. *)
Theorem homework_unknown_subject_is_general (input subject : string) :
  ~ Subjects.known_subject subject ->
  JS.inherited subject = false ->
  Homework.generateMockHomeworkHelp input subject =
    Homework.generateMockHomeworkHelp input "general" /\
  Homework.formatHomeworkResponse input subject =
    Homework.formatHomeworkResponse input "general".
Proof.
  intros Hunknown Hown.
  rewrite !generateMockHomeworkHelp_cases, !formatHomeworkResponse_cases, Hown.
  unfold Subjects.known_subject in Hunknown. cbn [In] in Hunknown.
  repeat match goal with
  | |- context [String.eqb subject ?k] =>
      destruct (String.eqb_spec subject k) as [->|_]; [exfalso; tauto|]
  end.
  split; reflexivity.
Qed.

Lemma homework_unknown_subject_is_general_witness :
  ~ Subjects.known_subject "biology" /\
  JS.inherited "biology" = false /\
  Homework.generateMockHomeworkHelp "What is osmosis?" "biology" =
    Homework.generateMockHomeworkHelp "What is osmosis?" "general".
Proof.
  assert (H : ~ Subjects.known_subject "biology").
  { unfold Subjects.known_subject. cbn [In]. intros [H|[H|[H|[H|[]]]]]; discriminate H. }
  split; [exact H|]. split; [reflexivity|].
  apply (homework_unknown_subject_is_general "What is osmosis?" "biology" H).
  reflexivity.
Defined.

(** ** The usage hook: loading, counting and the cap *)

Section UsageMore.
Import Usage.

Variable userId : string.
Variable now : Z.

Lemma select_single_reachable db :
  reachable db = true ->
  select_single db (userId, today now) =
    match daily_usage db !! (userId, today now) with
    | Some row => mkReply (Some row) None
    | None => mkReply None (Some PGRST116)
    end.
Proof. intros Hr. unfold select_single. rewrite Hr. reflexivity. Qed.

(** One allowed call keeps the hook in sync with the store. *)
Lemma incrementUsage_in_sync db h row :
  in_sync userId now db h row ->
  total_count row < 15 ->
  exists db' h',
    incrementUsage userId now (db, h) = (db', h', true) /\
    in_sync userId now db' h'
      (mkRow (total_count row + 1) (last_reset row) now).
Proof.
  intros (Hr & Hrow & Htotal & Hcan) Hlow.
  assert (Hallowed : canUse h = true) by (rewrite Hcan; apply Z.ltb_lt; exact Hlow).
  rewrite (incrementUsage_writes userId now db h row Hr Hrow Hallowed), Htotal.
  do 2 eexists. split; [reflexivity|].
  repeat split; cbn; [apply lookup_insert_eq].
Qed.

(** Calls made one after the other are allowed while the count is below
    15 and refused from then on. *)
Lemma sequential_until_cap n :
  forall db h row,
    in_sync userId now db h row ->
    exists db' h',
      sequential userId now n (db, h) =
        ((db', h'),
         (repeat true (Nat.min n (Z.to_nat (15 - total_count row))) ++
          repeat false (n - Z.to_nat (15 - total_count row)))%list) /\
      in_sync userId now db' h'
        (match Nat.min n (Z.to_nat (15 - total_count row)) with
         | O => row
         | S _ =>
             mkRow
               (total_count row + Z.of_nat (Nat.min n (Z.to_nat (15 - total_count row))))
               (last_reset row) now
         end).
Proof.
  induction n as [|n IH]; intros db h row Hsync.
  - exists db, h. split; [reflexivity | exact Hsync].
  - destruct (Z.lt_ge_cases (total_count row) 15) as [Hlow|Hcap].
    + destruct (incrementUsage_in_sync db h row Hsync Hlow) as (db1 & h1 & Hinc & Hsync1).
      destruct (IH db1 h1 _ Hsync1) as (db2 & h2 & Hseq & Hsync2).
      exists db2, h2. cbn [sequential]. rewrite Hinc, Hseq.
      cbn [total_count last_reset] in *.
      replace (Z.to_nat (15 - total_count row))
        with (S (Z.to_nat (15 - (total_count row + 1)))) by lia.
      cbn [Nat.min Nat.sub repeat app]. split; [reflexivity|].
      destruct (Nat.min n (Z.to_nat (15 - (total_count row + 1)))) as [|m] eqn:Hm.
      * replace (total_count row + Z.of_nat 1) with (total_count row + 1) by lia.
        exact Hsync2.
      * replace (total_count row + Z.of_nat (S (S m)))
          with (total_count row + 1 + Z.of_nat (S m)) by lia.
        exact Hsync2.
    + destruct Hsync as (Hr & Hrow & Htotal & Hcan).
      assert (Hdenied : canUse h = false) by (rewrite Hcan; apply Z.ltb_ge; exact Hcap).
      exists db, h. rewrite sequential_denied by exact Hdenied.
      replace (Z.to_nat (15 - total_count row)) with O by lia.
      rewrite Nat.min_0_r, Nat.sub_0_r. cbn [repeat app].
      split; [reflexivity|]. repeat split; assumption.
Qed.

End UsageMore.

(** X17: from a hook in sync with a record of count [c], [n] calls of
    [incrementUsage] made one after the other allow the first
    [15 - c] of them (none when [c >= 15]) and refuse the rest; the
    stored count and the hook's count both end at [c] plus the number
    of allowed calls, so they never pass 15 when [c <= 15]. *)
Theorem incrementUsage_sequential_cap
    (userId : string) (now : Z) (db : Usage.DB) (h : Usage.Hook) (row : Usage.Row)
    (n : nat) :
  Usage.in_sync userId now db h row ->
  snd (Usage.sequential userId now n (db, h)) =
    (repeat true (Nat.min n (Z.to_nat (15 - Usage.total_count row))) ++
     repeat false (n - Z.to_nat (15 - Usage.total_count row)))%list /\
  Usage.total_count <$>
    (Usage.daily_usage (fst (fst (Usage.sequential userId now n (db, h))))
       !! (userId, Usage.today now)) =
    Some (Usage.total_count row +
          Z.of_nat (Nat.min n (Z.to_nat (15 - Usage.total_count row)))) /\
  Usage.totalUsage (snd (fst (Usage.sequential userId now n (db, h)))) =
    Usage.total_count row +
    Z.of_nat (Nat.min n (Z.to_nat (15 - Usage.total_count row))).
Proof.
  intros Hsync.
  destruct (sequential_until_cap userId now n db h row Hsync)
    as (db' & h' & -> & (_ & Hrow' & Htotal' & _)).
  cbn [fst snd]. split; [reflexivity|]. rewrite Hrow', Htotal'.
  destruct (Nat.min n (Z.to_nat (15 - Usage.total_count row)));
    cbn [Usage.total_count fmap option_fmap option_map];
    split; f_equal; lia.
Qed.

Lemma incrementUsage_sequential_cap_witness :
  Usage.in_sync "u1" noon (store_with (usage_row 13 (noon - hours 2))) hook_at_13
    (usage_row 13 (noon - hours 2)) /\
  snd (Usage.sequential "u1" noon 4
         (store_with (usage_row 13 (noon - hours 2)), hook_at_13)) =
    [true; true; false; false].
Proof.
  assert (Hsync :
    Usage.in_sync "u1" noon (store_with (usage_row 13 (noon - hours 2))) hook_at_13
      (usage_row 13 (noon - hours 2)))
    by (repeat split; vm_compute; reflexivity).
  split; [exact Hsync|].
  apply (incrementUsage_sequential_cap "u1" noon _ hook_at_13 _ 4 Hsync).
Defined.

(** X18: the first load of the day creates the record: when the store
    is reachable and holds no row for the user today, [loadUsageData]
    inserts a row of count 0 last reset now, and the hook shows 0 uses,
    allows, and counts down 6 hours. *)
Theorem loadUsageData_creates_row
    (userId : string) (now : Z) (db : Usage.DB) (h : Usage.Hook) :
  Usage.reachable db = true ->
  Usage.daily_usage db !! (userId, Usage.today now) = None ->
  Usage.daily_usage (fst (Usage.loadUsageData userId now (db, h)))
    !! (userId, Usage.today now) = Some (Usage.mkRow 0 now now) /\
  snd (Usage.loadUsageData userId now (db, h)) =
    Usage.mkHook 0 true Usage.sixHours false.
Proof.
  intros Hr Hnone.
  unfold Usage.loadUsageData.
  rewrite (select_single_reachable userId now db Hr), Hnone.
  cbn [Usage.error Usage.data]. unfold Usage.insert_row. rewrite Hr.
  cbn. rewrite lookup_insert_eq. split; [reflexivity|].
  unfold Usage.calculateTimeUntilReset.
  replace (now + Usage.sixHours - now) with Usage.sixHours by lia.
  reflexivity.
Qed.

Lemma loadUsageData_creates_row_witness :
  Usage.reachable store_empty = true /\
  snd (Usage.loadUsageData "u1" noon (store_empty, Usage.initial)) =
    Usage.mkHook 0 true Usage.sixHours false.
Proof.
  split; [reflexivity|].
  apply (loadUsageData_creates_row "u1" noon store_empty Usage.initial);
    reflexivity.
Defined.

(** X19: a record whose count has reached 15 less than 6 hours after
    its last reset denies: after [loadUsageData] the hook has
    [canUse = false], no remaining use and a countdown above zero, every
    content is refused by the handlers' guard, and the store is left as
    it was. *)
Theorem loadUsageData_denies_until_reset
    (userId : string) (now : Z) (db : Usage.DB) (h : Usage.Hook) (row : Usage.Row)
    (content : string) :
  Usage.reachable db = true ->
  Usage.daily_usage db !! (userId, Usage.today now) = Some row ->
  15 <= Usage.total_count row ->
  now - Usage.last_reset row < Usage.sixHours ->
  Usage.allowed (snd (Usage.loadUsageData userId now (db, h))) content = false /\
  Usage.remainingUses (snd (Usage.loadUsageData userId now (db, h))) = 0 /\
  0 < Usage.timeUntilReset (snd (Usage.loadUsageData userId now (db, h))) /\
  fst (Usage.loadUsageData userId now (db, h)) = db.
Proof.
  intros Hr Hrow Hcap Hfresh.
  unfold Usage.loadUsageData.
  rewrite (select_single_reachable userId now db Hr), Hrow.
  cbn [Usage.error Usage.data].
  replace (Usage.sixHours <=? now - Usage.last_reset row) with false
    by (symmetry; apply Z.leb_gt; exact Hfresh).
  cbn [andb]. unfold Usage.allowed, Usage.remainingUses, Usage.calculateTimeUntilReset.
  cbn [fst snd Usage.canUse Usage.totalUsage Usage.timeUntilReset Usage.setLoading
       Usage.setTimeUntilReset Usage.setCanUse Usage.setTotalUsage].
  replace (Usage.total_count row <? 15) with false
    by (symmetry; apply Z.ltb_ge; exact Hcap).
  rewrite andb_false_r. repeat split; lia.
Qed.

Lemma loadUsageData_denies_until_reset_witness :
  15 <= Usage.total_count (usage_row 15 (noon - hours 1)) /\
  noon - Usage.last_reset (usage_row 15 (noon - hours 1)) < Usage.sixHours /\
  Usage.allowed
    (snd (Usage.loadUsageData "u1" noon
            (store_with (usage_row 15 (noon - hours 1)), Usage.initial)))
    two_sentences = false.
Proof.
  split; [cbn; lia|]. split; [vm_compute; reflexivity|].
  apply (loadUsageData_denies_until_reset "u1" noon
           (store_with (usage_row 15 (noon - hours 1))) Usage.initial
           (usage_row 15 (noon - hours 1)) two_sentences).
  - reflexivity.
  - vm_compute. reflexivity.
  - cbn. lia.
  - vm_compute. reflexivity.
Defined.

Section UsageFrame.
Import Usage.

Variable userId : string.
Variable now : Z.

Lemma update_row_frame db change key :
  key <> (userId, today now) ->
  daily_usage (fst (update_row db (userId, today now) change)) !! key =
    daily_usage db !! key /\
  reachable (fst (update_row db (userId, today now) change)) = reachable db.
Proof.
  intros Hne. unfold update_row.
  destruct (reachable db) eqn:Hr; [|auto].
  destruct (daily_usage db !! (userId, today now)); cbn; [|auto].
  rewrite lookup_insert_ne by congruence. auto.
Qed.

Lemma insert_row_frame db row key :
  key <> (userId, today now) ->
  daily_usage (fst (insert_row db (userId, today now) row)) !! key =
    daily_usage db !! key /\
  reachable (fst (insert_row db (userId, today now) row)) = reachable db.
Proof.
  intros Hne. unfold insert_row.
  destruct (reachable db) eqn:Hr; cbn; [|auto].
  rewrite lookup_insert_ne by congruence. auto.
Qed.

End UsageFrame.

(** X20: the hook touches only the row of its user for today: the rows
    of other users and of other days are the same after
    [loadUsageData], [incrementUsage] and [resetUsage] as before. *)
Theorem usage_hook_frame
    (userId : string) (now : Z) (db : Usage.DB) (h : Usage.Hook) (key : string * Z) :
  key <> (userId, Usage.today now) ->
  Usage.daily_usage (fst (Usage.loadUsageData userId now (db, h))) !! key =
    Usage.daily_usage db !! key /\
  Usage.daily_usage (fst (fst (Usage.incrementUsage userId now (db, h)))) !! key =
    Usage.daily_usage db !! key /\
  Usage.daily_usage (fst (Usage.resetUsage userId now (db, h))) !! key =
    Usage.daily_usage db !! key.
Proof.
  intros Hne.
  assert (Hreset : forall h',
    Usage.daily_usage (fst (Usage.resetUsage userId now (db, h'))) !! key =
      Usage.daily_usage db !! key).
  { intros h'. unfold Usage.resetUsage.
    pose proof (update_row_frame userId now db
                  (fun _ => Usage.mkRow 0 now now) key Hne) as [Hf _].
    destruct (Usage.update_row db _ _) as [db' reply].
    destruct (Usage.data reply); exact Hf. }
  split; [|split; [|apply Hreset]].
  - unfold Usage.loadUsageData.
    destruct (Usage.select_single db (userId, Usage.today now)) as [data [[|]|]];
      cbn [Usage.error Usage.data].
    + pose proof (insert_row_frame userId now db (Usage.mkRow 0 now now) key Hne)
        as [Hf _].
      destruct (Usage.insert_row db _ _) as [db' created].
      destruct (Usage.data created); exact Hf.
    + destruct data as [row|]; [|reflexivity].
      destruct ((Usage.sixHours <=? now - Usage.last_reset row)
                && (15 <=? Usage.total_count row)); [|reflexivity].
      specialize (Hreset (Usage.setTotalUsage (Usage.total_count row) h)).
      destruct (Usage.resetUsage userId now _). exact Hreset.
    + destruct data as [row|]; [|reflexivity].
      destruct ((Usage.sixHours <=? now - Usage.last_reset row)
                && (15 <=? Usage.total_count row)); [|reflexivity].
      specialize (Hreset (Usage.setTotalUsage (Usage.total_count row) h)).
      destruct (Usage.resetUsage userId now _). exact Hreset.
  - unfold Usage.incrementUsage. destruct (Usage.canUse h); [|reflexivity].
    cbn [negb].
    pose proof (update_row_frame userId now db
                  (fun row => Usage.mkRow (Usage.totalUsage h + 1)
                                (Usage.last_reset row) now) key Hne) as [Hf _].
    destruct (Usage.update_row db _ _) as [db' reply].
    destruct (Usage.data reply); exact Hf.
Qed.

Lemma usage_hook_frame_witness :
  ("u2", 20000) <> ("u1", Usage.today noon) /\
  Usage.daily_usage
    (fst (Usage.loadUsageData "u1" noon
            (store_with (usage_row 15 (noon - hours 7)), Usage.initial)))
    !! ("u2", 20000) =
  Usage.daily_usage (store_with (usage_row 15 (noon - hours 7))) !! ("u2", 20000).
Proof.
  split; [discriminate|].
  apply (usage_hook_frame "u1" noon (store_with (usage_row 15 (noon - hours 7)))
           Usage.initial ("u2", 20000)).
  discriminate.
Defined.

(** X21: after every load from a reachable store the hook agrees with
    the stored record: its count is the stored count, and it allows
    exactly when that count is below 15. *)
Theorem loadUsageData_in_sync
    (userId : string) (now : Z) (db : Usage.DB) (h : Usage.Hook) :
  Usage.reachable db = true ->
  exists row,
    Usage.in_sync userId now
      (fst (Usage.loadUsageData userId now (db, h)))
      (snd (Usage.loadUsageData userId now (db, h))) row.
Proof.
  intros Hr. unfold Usage.loadUsageData.
  rewrite (select_single_reachable userId now db Hr).
  destruct (Usage.daily_usage db !! (userId, Usage.today now)) as [row|] eqn:Hrow;
    cbn [Usage.error Usage.data].
  - destruct ((Usage.sixHours <=? now - Usage.last_reset row)
              && (15 <=? Usage.total_count row)).
    + unfold Usage.resetUsage.
      rewrite (update_row_reachable userId now db row) by assumption.
      exists (Usage.mkRow 0 now now). repeat split; cbn. apply lookup_insert_eq.
    + exists row. repeat split; cbn; assumption.
  - unfold Usage.insert_row. rewrite Hr.
    exists (Usage.mkRow 0 now now). repeat split; cbn. apply lookup_insert_eq.
Qed.

Lemma loadUsageData_in_sync_witness :
  Usage.reachable (store_with (usage_row 15 (noon - hours 7))) = true /\
  exists row,
    Usage.in_sync "u1" noon
      (fst (Usage.loadUsageData "u1" noon
              (store_with (usage_row 15 (noon - hours 7)), Usage.initial)))
      (snd (Usage.loadUsageData "u1" noon
              (store_with (usage_row 15 (noon - hours 7)), Usage.initial)))
      row.
Proof.
  split; [reflexivity|].
  apply (loadUsageData_in_sync "u1" noon
           (store_with (usage_row 15 (noon - hours 7))) Usage.initial).
  reflexivity.
Defined.

(** ** Activity counters and streaks *)

(** X23: when the store holds the user's row, [incrementUsage] of the
    profile hook leaves a row whose current streak is at most its
    longest streak and whose longest streak is not below the one the
    hook had; the counter of the feature used is the hook's counter plus
    one, the subscription and the other counters are those of the stored
    row, and the hook holds the row the store returned. *)
Theorem streak_incrementUsage_invariant
    (day : Z -> Z) (now : Z) (type : Profile.Feature) (row p : Streak.Row) :
  exists row',
    Streak.incrementUsage day now type (Streak.mkState (Some row) (Some p)) =
      Streak.mkState (Some row') (Some row') /\
    Streak.current_streak row' <= Streak.longest_streak row' /\
    Streak.longest_streak p <= Streak.longest_streak row' /\
    Profile.count_of (Streak.counts row') type =
      Profile.count_of (Streak.counts p) type + 1 /\
    Profile.subscription_type (Streak.counts row') =
      Profile.subscription_type (Streak.counts row) /\
    (forall other, other <> type ->
       Profile.count_of (Streak.counts row') other =
       Profile.count_of (Streak.counts row) other) /\
    Streak.last_activity row' = Some now.
Proof.
  eexists. split; [reflexivity|]. cbn.
  split; [lia|]. split; [lia|].
  split; [destruct type; reflexivity|].
  split; [destruct type; reflexivity|].
  split; [|reflexivity].
  intros other Hother. destruct type, other; try reflexivity; contradiction.
Qed.

(** X24: streaks over two uses.  After a use at [now1], a second use at
    [now2] keeps the streak when it falls on the same day, extends it by
    one when it falls on the next day, and restarts it at 1 on any other
    day. *)
Theorem streak_over_two_uses
    (day : Z -> Z) (now1 now2 : Z) (type1 type2 : Profile.Feature)
    (row p : Streak.Row) :
  exists row1 row2,
    Streak.incrementUsage day now1 type1 (Streak.mkState (Some row) (Some p)) =
      Streak.mkState (Some row1) (Some row1) /\
    Streak.incrementUsage day now2 type2 (Streak.mkState (Some row1) (Some row1)) =
      Streak.mkState (Some row2) (Some row2) /\
    Streak.current_streak row2 =
      (if decide (day now2 = day now1) then Streak.current_streak row1
       else if decide (day now2 = day now1 + 1) then Streak.current_streak row1 + 1
       else 1) /\
    Streak.current_streak row1 <= Streak.longest_streak row1 <=
      Streak.longest_streak row2.
Proof.
  do 2 eexists. split; [reflexivity|]. split; [reflexivity|]. cbn.
  split; [|lia].
  repeat case_decide; try reflexivity; exfalso;
    repeat match goal with
    | H : Some _ = Some _ |- _ => injection H as H
    | H : Some _ <> Some _ |- _ => assert (_ <> _) by (intros E; apply H; f_equal; exact E); clear H
    end; lia.
Qed.

(** ** A request in the summarizer tab *)

(** X25: with the hook in sync with a record of count below 15 and a
    content that is not blank, [handleSummarize] shows what
    [summarizeText] returns for that content and then records one use:
    the stored count goes up by exactly one, the last reset is kept, and
    the hook is again in sync with the store. *)
Theorem handleSummarize_generates_then_counts
    (post : string -> string -> nat -> Invoker.Outcome)
    (userId : string) (now : Z) (content : string)
    (db : Usage.DB) (h : Usage.Hook) (row : Usage.Row) :
  Usage.in_sync userId now db h row ->
  Usage.total_count row < 15 ->
  JS.truthy (JS.trim content) = true ->
  snd (Tab.handleSummarize post userId now content (db, h)) =
    Some (Pipeline.summarizeText post content) /\
  Usage.in_sync userId now
    (fst (fst (Tab.handleSummarize post userId now content (db, h))))
    (snd (fst (Tab.handleSummarize post userId now content (db, h))))
    (Usage.mkRow (Usage.total_count row + 1) (Usage.last_reset row) now).
Proof.
  intros Hsync Hlow Hcontent.
  destruct (incrementUsage_in_sync userId now db h row Hsync Hlow)
    as (db' & h' & Hinc & Hsync').
  destruct Hsync as (Hr & Hrow & Htotal & Hcan).
  unfold Tab.handleSummarize, Usage.allowed. cbn [snd].
  rewrite Hcontent, Hcan.
  replace (Usage.total_count row <? 15) with true
    by (symmetry; apply Z.ltb_lt; exact Hlow).
  cbn [andb negb]. rewrite Hinc. cbn [fst snd]. split; [reflexivity | exact Hsync'].
Qed.

Lemma handleSummarize_generates_then_counts_witness :
  Usage.total_count (usage_row 13 (noon - hours 2)) < 15 /\
  JS.truthy (JS.trim two_sentences) = true /\
  snd (Tab.handleSummarize unauthorized_network "u1" noon two_sentences
         (store_with (usage_row 13 (noon - hours 2)), hook_at_13)) =
    Some (Pipeline.summarizeText unauthorized_network two_sentences).
Proof.
  split; [cbn; lia|]. split; [reflexivity|].
  apply (handleSummarize_generates_then_counts unauthorized_network "u1" noon
           two_sentences (store_with (usage_row 13 (noon - hours 2))) hook_at_13
           (usage_row 13 (noon - hours 2))).
  - repeat split; vm_compute; reflexivity.
  - cbn. lia.
  - reflexivity.
Defined.

Section BlankFacts.
Import JS Runs.

Lemma blank_step a s1 :
  blank (String a s1) =
    if is_space a then blank s1
    else
      match s1 with
      | EmptyString => false
      | String b s2 =>
          if is_space2 a b then blank s2
          else
            match s2 with
            | EmptyString => false
            | String c s3 => is_space3 a b c && blank s3
            end
      end.
Proof. destruct s1 as [|b [|c s3]]; reflexivity. Qed.

Lemma trimStart_blank s : blank s = true -> trimStart s = EmptyString.
Proof.
  induction s as [|a s1 IH1 IH2 IH3] using string_ind3; [reflexivity|].
  rewrite blank_step, trimStart_step.
  destruct (is_space a); [exact IH1|].
  destruct s1 as [|b s2]; [discriminate|].
  destruct (is_space2 a b); [exact (IH2 b s2 eq_refl)|].
  destruct s2 as [|c s3]; [discriminate|].
  destruct (is_space3 a b c); [exact (IH3 b c s3 eq_refl) | discriminate].
Qed.

(** Trimming leaves nothing of a string of white space. *)
Lemma trim_blank s : blank s = true -> trim s = EmptyString.
Proof. intros H. unfold trim. rewrite (trimStart_blank s H). reflexivity. Qed.

End BlankFacts.

(** X26: a content made of white space only, or none at all, is
    refused whatever the usage, and any content is refused when the
    hook does not allow: [handleSummarize] then generates nothing and
    leaves the store and the hook as they were. *)
Theorem handleSummarize_refused
    (post : string -> string -> nat -> Invoker.Outcome)
    (userId : string) (now : Z) (content : string) (st : Usage.DB * Usage.Hook) :
  Runs.blank content = true \/ Usage.canUse (snd st) = false ->
  Tab.handleSummarize post userId now content st = (st, None).
Proof.
  intros Hrefused. unfold Tab.handleSummarize, Usage.allowed.
  destruct Hrefused as [Hblank | ->].
  - rewrite (trim_blank content Hblank). reflexivity.
  - rewrite andb_false_r. reflexivity.
Qed.

Lemma handleSummarize_refused_witness :
  Tab.handleSummarize unauthorized_network "u1" noon nbsp_and_spaces
    (store_with (usage_row 13 (noon - hours 2)), hook_at_13) =
  ((store_with (usage_row 13 (noon - hours 2)), hook_at_13), None).
Proof.
  apply (handleSummarize_refused unauthorized_network "u1" noon nbsp_and_spaces).
  left. reflexivity.
Defined.
